(** * clld: the data model, its validation invariants, and two helpers

    A shallow embedding of [clld/db/models/common.py].  The model classes
    are records, one Rocq module per Python class so that attributes keep
    their names.  Attribute assignment goes through the validators that
    [@validates] registers under an attribute name; failing assertions and
    missing attributes are outcomes of type [outcome].

    Behind the data model come [Data] of [clld/scripts/util.py] and the
    views of [clld/web/views/__init__.py] that redirect to a combination of
    parameters and add link headers. *)

From stdpp Require Import base option list gmap strings sorting.
From Stdlib Require Import ZArith Ascii String.
From Stdlib Require OrderedTypeEx.

Local Open Scope Z_scope.
Local Open Scope string_scope.

(** ** Python outcomes *)

Inductive exn :=
| AssertionError
| AttributeError (name : string).

Inductive outcome (A : Type) :=
| Return (a : A)
| Raise (e : exn).
Arguments Return {A} a.
Arguments Raise {A} e.

#[global] Instance exn_eq_dec : EqDecision exn.
Proof. solve_decision. Defined.

#[global] Instance outcome_ret : MRet outcome := fun A a => Return a.
#[global] Instance outcome_bind : MBind outcome := fun A B f m =>
  match m with
  | Return a => f a
  | Raise e => Raise e
  end.

(** [assert b] *)
Definition assert (b : bool) : outcome unit :=
  if b then Return tt else Raise AssertionError.

(** ** Rows without validators

    Column values loaded for these classes are typed by their column;
    [None] is SQL NULL.  Float columns (latitude, longitude, frequency)
    carry no behaviour in this module and are left out of the records. *)

Module Language.
Record t := mk {
  pk : option Z;
  id : option string;
  name : option string;
  description : option string }.
#[global] Instance eq_dec : EqDecision t.
Proof. solve_decision. Defined.
End Language.

Module DomainElement.
Record t := mk {
  pk : option Z;
  id : option string;
  name : option string;
  description : option string;
  parameter_pk : option Z }.
#[global] Instance eq_dec : EqDecision t.
Proof. solve_decision. Defined.
End DomainElement.

Module UnitDomainElement.
Record t := mk {
  pk : option Z;
  id : option string;
  name : option string;
  description : option string;
  unitparameter_pk : option Z;
  ord : option Z }.
#[global] Instance eq_dec : EqDecision t.
Proof. solve_decision. Defined.
End UnitDomainElement.

(** ** Objects handed to attribute assignment

    An attribute of a mapped instance holds whatever object was assigned to
    it.  The objects that occur here are [None], integers, strings and
    references to related rows.  The session's identity map keeps one
    object per row, so comparing objects is comparing rows. *)

Inductive pyobj :=
| PyNone
| PyInt (n : Z)
| PyStr (s : string)
| PyLanguage (l : Language.t)
| PyDomainElement (d : DomainElement.t)
| PyUnitDomainElement (d : UnitDomainElement.t).

#[global] Instance pyobj_eq_dec : EqDecision pyobj.
Proof. solve_decision. Defined.

(** Python's [==] on these objects. *)
Definition py_eq (a b : pyobj) : bool := bool_decide (a = b).

(** Truth value of an object, as tested by [if obj:]. *)
Definition truthy (o : pyobj) : bool :=
  match o with
  | PyNone => false
  | PyInt n => negb (Z.eqb n 0)
  | PyStr s => negb (String.eqb s "")
  | PyLanguage _ | PyDomainElement _ | PyUnitDomainElement _ => true
  end.

Definition of_int (c : option Z) : pyobj :=
  match c with Some n => PyInt n | None => PyNone end.

Definition of_str (c : option string) : pyobj :=
  match c with Some s => PyStr s | None => PyNone end.

(** Association-list lookup by attribute name. *)
Fixpoint assoc {A} (key : string) (l : list (string * A)) : option A :=
  match l with
  | [] => None
  | (k, a) :: l' => if String.eqb key k then Some a else assoc key l'
  end.

(** The attributes of an object, by name. *)
Definition attributes (o : pyobj) : list (string * pyobj) :=
  match o with
  | PyLanguage l =>
      [("pk", of_int (Language.pk l)); ("id", of_str (Language.id l));
       ("name", of_str (Language.name l));
       ("description", of_str (Language.description l))]
  | PyDomainElement d =>
      [("pk", of_int (DomainElement.pk d)); ("id", of_str (DomainElement.id d));
       ("name", of_str (DomainElement.name d));
       ("description", of_str (DomainElement.description d));
       ("parameter_pk", of_int (DomainElement.parameter_pk d))]
  | PyUnitDomainElement d =>
      [("pk", of_int (UnitDomainElement.pk d));
       ("id", of_str (UnitDomainElement.id d));
       ("name", of_str (UnitDomainElement.name d));
       ("description", of_str (UnitDomainElement.description d));
       ("unitparameter_pk", of_int (UnitDomainElement.unitparameter_pk d));
       ("ord", of_int (UnitDomainElement.ord d))]
  | PyNone | PyInt _ | PyStr _ => []
  end.

(** [obj.name] *)
Definition getattr (o : pyobj) (name : string) : outcome pyobj :=
  match assoc name (attributes o) with
  | Some v => Return v
  | None => Raise (AttributeError name)
  end.

(** ** Validators

    [@validates(name)] registers a method of the class under an attribute
    name.  When the attribute of that name is assigned, the method is called
    with the instance, the name and the incoming value, and what it returns
    is stored.  Attributes without a registered method store the value as
    it comes. *)

Definition validator (Self : Type) := Self -> string -> pyobj -> outcome pyobj.

Definition validated {Self} (validators : list (string * validator Self))
    (self : Self) (key : string) (value : pyobj) : outcome pyobj :=
  match assoc key validators with
  | Some validate => validate self key value
  | None => Return value
  end.

(** ** Value *)

Module Value.
Record t := mk {
  pk : pyobj;
  language_pk : pyobj;
  parameter_pk : pyobj;
  contribution_pk : pyobj;
  domainelement_pk : pyobj;
  domainelement : pyobj;
  language : pyobj }.
#[global] Instance eq_dec : EqDecision t.
Proof. solve_decision. Defined.

Definition validate_parameter_pk (self : t) (key : string)
    (parameter_pk : pyobj) : outcome pyobj :=
  (if truthy (domainelement self)
   then d_pk ← getattr (domainelement self) "parameter_pk";
        assert (py_eq d_pk parameter_pk)
   else Return tt) ≫= fun _ =>
  Return parameter_pk.

(** [@validates('parameter_pk')] *)
Definition validators : list (string * validator t) :=
  [("parameter_pk", validate_parameter_pk)].

(** Storing a value under a mapped attribute name. *)
Definition store (self : t) (key : string) (value : pyobj) : t :=
  if String.eqb key "pk" then
    mk value (language_pk self) (parameter_pk self) (contribution_pk self)
       (domainelement_pk self) (domainelement self) (language self)
  else if String.eqb key "language_pk" then
    mk (pk self) value (parameter_pk self) (contribution_pk self)
       (domainelement_pk self) (domainelement self) (language self)
  else if String.eqb key "parameter_pk" then
    mk (pk self) (language_pk self) value (contribution_pk self)
       (domainelement_pk self) (domainelement self) (language self)
  else if String.eqb key "contribution_pk" then
    mk (pk self) (language_pk self) (parameter_pk self) value
       (domainelement_pk self) (domainelement self) (language self)
  else if String.eqb key "domainelement_pk" then
    mk (pk self) (language_pk self) (parameter_pk self) (contribution_pk self)
       value (domainelement self) (language self)
  else if String.eqb key "domainelement" then
    mk (pk self) (language_pk self) (parameter_pk self) (contribution_pk self)
       (domainelement_pk self) value (language self)
  else if String.eqb key "language" then
    mk (pk self) (language_pk self) (parameter_pk self) (contribution_pk self)
       (domainelement_pk self) (domainelement self) value
  else self.

(** [self.key = value] *)
Definition setattr (self : t) (key : string) (value : pyobj) : outcome t :=
  stored ← validated validators self key value;
  Return (store self key stored).
End Value.

(** ** UnitValue *)

Module UnitValue.
Record t := mk {
  pk : pyobj;
  unit_pk : pyobj;
  unitparameter_pk : pyobj;
  contribution_pk : pyobj;
  unitdomainelement_pk : pyobj;
  unitdomainelement : pyobj }.
#[global] Instance eq_dec : EqDecision t.
Proof. solve_decision. Defined.

Definition validate_parameter_pk (self : t) (key : string)
    (unitparameter_pk : pyobj) : outcome pyobj :=
  (if truthy (unitdomainelement self)
   then d_pk ← getattr (unitdomainelement self) "unitparameter_pk";
        assert (py_eq d_pk unitparameter_pk)
   else Return tt) ≫= fun _ =>
  Return unitparameter_pk.

(** [@validates('parameter_pk')]: the name given to the decorator is
    [parameter_pk], while the column of this class is
    [unitparameter_pk]. *)
Definition validators : list (string * validator t) :=
  [("parameter_pk", validate_parameter_pk)].

Definition store (self : t) (key : string) (value : pyobj) : t :=
  if String.eqb key "pk" then
    mk value (unit_pk self) (unitparameter_pk self) (contribution_pk self)
       (unitdomainelement_pk self) (unitdomainelement self)
  else if String.eqb key "unit_pk" then
    mk (pk self) value (unitparameter_pk self) (contribution_pk self)
       (unitdomainelement_pk self) (unitdomainelement self)
  else if String.eqb key "unitparameter_pk" then
    mk (pk self) (unit_pk self) value (contribution_pk self)
       (unitdomainelement_pk self) (unitdomainelement self)
  else if String.eqb key "contribution_pk" then
    mk (pk self) (unit_pk self) (unitparameter_pk self) value
       (unitdomainelement_pk self) (unitdomainelement self)
  else if String.eqb key "unitdomainelement_pk" then
    mk (pk self) (unit_pk self) (unitparameter_pk self) (contribution_pk self)
       value (unitdomainelement self)
  else if String.eqb key "unitdomainelement" then
    mk (pk self) (unit_pk self) (unitparameter_pk self) (contribution_pk self)
       (unitdomainelement_pk self) value
  else self.

(** The mapped attributes of the class: its columns and relationships,
    with those of its bases.  A validator is attached to the mapped
    attribute of its name; under a name that is not mapped it never runs,
    and the assignment binds a plain attribute, which the record does not
    hold. *)
Definition mapped : list string :=
  ["pk"; "id"; "name"; "description"; "unit_pk"; "unitparameter_pk";
   "contribution_pk"; "unitdomainelement_pk"; "frequency"; "unitparameter";
   "unitdomainelement"; "contribution"; "unit"; "data"].

Definition setattr (self : t) (key : string) (value : pyobj) : outcome t :=
  stored ← (if existsb (String.eqb key) mapped
            then validated validators self key value
            else Return value);
  Return (store self key stored).
End UnitValue.

(** ** Identifier *)

(** [x in xs] *)
Definition py_in (x : pyobj) (xs : list pyobj) : bool :=
  existsb (py_eq x) xs.

Module Identifier.
Record t := mk {
  pk : pyobj;
  id : pyobj;
  name : pyobj;
  description : pyobj;
  type : pyobj }.
#[global] Instance eq_dec : EqDecision t.
Proof. solve_decision. Defined.

Definition validate_type (self : t) (key : string) (type : pyobj)
    : outcome pyobj :=
  assert (py_in type [PyStr "wals"; PyStr "iso639-3"; PyStr "glottolog"]) ≫= fun _ =>
  Return type.

(** [@validates('type')] *)
Definition validators : list (string * validator t) :=
  [("type", validate_type)].

Definition store (self : t) (key : string) (value : pyobj) : t :=
  if String.eqb key "pk" then
    mk value (id self) (name self) (description self) (type self)
  else if String.eqb key "id" then
    mk (pk self) value (name self) (description self) (type self)
  else if String.eqb key "name" then
    mk (pk self) (id self) value (description self) (type self)
  else if String.eqb key "description" then
    mk (pk self) (id self) (name self) value (type self)
  else if String.eqb key "type" then
    mk (pk self) (id self) (name self) (description self) value
  else self.

Definition setattr (self : t) (key : string) (value : pyobj) : outcome t :=
  stored ← validated validators self key value;
  Return (store self key stored).

(** A new instance: no attribute has been assigned yet. *)
Definition new : t := mk PyNone PyNone PyNone PyNone PyNone.
End Identifier.

(** ** Library functions used by the model classes *)

(** [itertools.groupby(iterable, key)]: one [(key, group)] pair per run of
    consecutive items whose keys are equal, in the order of the input. *)
Fixpoint groupby {A K} `{EqDecision K} (key : A -> K) (l : list A)
    : list (K * list A) :=
  match l with
  | [] => []
  | x :: l' =>
      match groupby key l' with
      | (k, g) :: groups =>
          if decide (key x = k) then (k, x :: g) :: groups
          else (key x, [x]) :: (k, g) :: groups
      | [] => [(key x, [x])]
      end
  end.

(** [sorted(iterable, key=key)]: a stable sort, so its result is that of
    inserting every item behind the items that do not compare greater. *)
Section sorting.
Context {A K : Type} (lt : K -> K -> bool) (key : A -> K).

Fixpoint insort (x : A) (l : list A) : list A :=
  match l with
  | [] => [x]
  | y :: l' => if lt (key y) (key x) then y :: insort x l' else x :: y :: l'
  end.

Definition sorted (l : list A) : list A := foldr insort [] l.
End sorting.

(** Order of nullable keys: [None] comes before every value, as Python 2
    compares it. *)
Definition none_first {A} (lt : A -> A -> bool) (a b : option A) : bool :=
  match a, b with
  | None, Some _ => true
  | Some x, Some y => lt x y
  | _, None => false
  end.

Definition int_lt : option Z -> option Z -> bool := none_first Z.ltb.

(** The same for strings, compared character by character: the order of
    Python's strings, and of a text column under a binary collation with
    NULL first. *)
Definition str_lt : option string -> option string -> bool :=
  none_first String.ltb.

(** [dict(pairs)]: later pairs overwrite earlier ones. *)
Definition dict `{Countable K} {V} (pairs : list (K * V)) : gmap K V :=
  foldl (fun d kv => <[kv.1 := kv.2]> d) ∅ pairs.

(** ** Parameter (the module is named [Parameter_], [Parameter] being a
    reserved word) *)

Module Parameter_.
Record t := mk {
  pk : option Z;
  id : option string;
  name : option string;
  description : option string;
  domain : list DomainElement.t;
  values : list Value.t }.

(** The generator, as the list of the items it yields. *)
Definition languages (self : t) : list pyobj :=
  (fun '(language, values) => language)
    <$> groupby Value.language (values self).
End Parameter_.

(** ** Contribution and its contributors *)

Module Contributor.
Record t := mk {
  pk : option Z;
  id : option string;
  name : option string;
  description : option string;
  url : option string;
  email : option string;
  address : option string }.
#[global] Instance eq_dec : EqDecision t.
Proof. solve_decision. Defined.
End Contributor.

(** [Column(..., default=d)]: the default is used on INSERT for an
    attribute that holds no value. *)
Definition column_default {A} (d : A) (value : option A) : option A :=
  match value with
  | Some _ => value
  | None => Some d
  end.

Module ContributionContributor.
Record t := mk {
  pk : option Z;
  contribution_pk : option Z;
  contributor_pk : option Z;
  ord : option Z;
  primary : option bool;
  contributor : Contributor.t }.
#[global] Instance eq_dec : EqDecision t.
Proof. solve_decision. Defined.

(** The constructor: keyword arguments that are not supplied leave the
    attribute without a value. *)
Definition new (contributor : Contributor.t) (ord : option Z)
    (primary : option bool) : t :=
  mk None None (Contributor.pk contributor) ord primary contributor.

(** INSERT of the row, which applies the column defaults
    [ord = Column(Integer, default=1)] and
    [primary = Column(Boolean, default=True)]. *)
Definition insert (self : t) : t :=
  mk (pk self) (contribution_pk self) (contributor_pk self)
     (column_default 1 (ord self)) (column_default true (primary self))
     (contributor self).

(** [if assoc.primary] *)
Definition is_primary (self : t) : bool :=
  match primary self with
  | Some b => b
  | None => false
  end.
End ContributionContributor.

Module Contribution.
Record t := mk {
  pk : option Z;
  id : option string;
  name : option string;
  description : option string;
  contributor_assocs : list ContributionContributor.t }.

Definition primary_contributors (self : t) : list Contributor.t :=
  ContributionContributor.contributor
    <$> List.filter ContributionContributor.is_primary
          (sorted int_lt ContributionContributor.ord (contributor_assocs self)).

Definition secondary_contributors (self : t) : list Contributor.t :=
  ContributionContributor.contributor
    <$> List.filter (fun assoc => negb (ContributionContributor.is_primary assoc))
          (sorted int_lt ContributionContributor.ord (contributor_assocs self)).
End Contribution.

(** ** References

    [backref("references", order_by=cls.key)]: the collection of an owner is
    loaded as the rows that point to the owner, in the order the database
    gives to their [key] column (its collation, and the place it gives to
    NULL).  That order is a parameter [collation] of the loader. *)

Module ValueReference.
Record t := mk {
  pk : option Z;
  key : option string;
  description : option string;
  source_pk : option Z;
  value_pk : option Z }.
#[global] Instance eq_dec : EqDecision t.
Proof. solve_decision. Defined.
End ValueReference.

Module SentenceReference.
Record t := mk {
  pk : option Z;
  key : option string;
  description : option string;
  source_pk : option Z;
  sentence_pk : option Z }.
#[global] Instance eq_dec : EqDecision t.
Proof. solve_decision. Defined.
End SentenceReference.

(** Rows of [table] whose foreign key [fk] is the owner's primary key,
    ordered by [key]. *)
Definition load_ordered {R} (collation : option string -> option string -> bool)
    (fk : R -> option Z) (key : R -> option string)
    (table : list R) (owner_pk : Z) : list R :=
  sorted collation key
    (List.filter (fun r => bool_decide (fk r = Some owner_pk)) table).

(** [value.references] *)
Definition Value_references (collation : option string -> option string -> bool)
    (table : list ValueReference.t) (value_pk : Z) : list ValueReference.t :=
  load_ordered collation ValueReference.value_pk ValueReference.key table
    value_pk.

(** [sentence.references] *)
Definition Sentence_references
    (collation : option string -> option string -> bool)
    (table : list SentenceReference.t) (sentence_pk : Z)
    : list SentenceReference.t :=
  load_ordered collation SentenceReference.sentence_pk SentenceReference.key
    table sentence_pk.

(** ** Annotations: key-value pairs and files attached to an object *)

Module File.
Record t := mk {
  pk : option Z;
  name : option string;
  mime_type : option string;
  content : option string }.
#[global] Instance eq_dec : EqDecision t.
Proof. solve_decision. Defined.
End File.

(** [name.split('_')[0]] *)
Fixpoint split_head (name : string) : string :=
  match name with
  | EmptyString => EmptyString
  | String c rest =>
      if Ascii.eqb c "_"%char then EmptyString else String c (split_head rest)
  end.

Module FilesMixin.
Definition owner_class (cls : string) : string := split_head cls.

Record t := mk {
  pk : option Z;
  name : option string;
  ord : option Z;
  file_pk : option Z;
  file : option File.t;
  object_pk : option Z }.
#[global] Instance eq_dec : EqDecision t.
Proof. solve_decision. Defined.
End FilesMixin.

Module DataMixin.
Definition owner_class (cls : string) : string := split_head cls.

Record t := mk {
  pk : option Z;
  key : option string;
  value : option string;
  ord : option Z;
  object_pk : option Z }.
#[global] Instance eq_dec : EqDecision t.
Proof. solve_decision. Defined.
End DataMixin.

(** A row of an annotation table. *)
Inductive row :=
| DataRow (d : DataMixin.t)
| FilesRow (f : FilesMixin.t).

Definition row_key (r : row) : outcome (option string) :=
  match r with
  | DataRow d => Return (DataMixin.key d)
  | FilesRow _ => Raise (AttributeError "key")
  end.

Definition row_value (r : row) : outcome (option string) :=
  match r with
  | DataRow d => Return (DataMixin.value d)
  | FilesRow _ => Raise (AttributeError "value")
  end.

Definition row_name (r : row) : outcome (option string) :=
  match r with
  | FilesRow f => Return (FilesMixin.name f)
  | DataRow _ => Raise (AttributeError "name")
  end.

Definition row_file (r : row) : outcome (option File.t) :=
  match r with
  | FilesRow f => Return (FilesMixin.file f)
  | DataRow _ => Raise (AttributeError "file")
  end.

(** Evaluation of a generator expression [(f x for x in l)], item by item. *)
Fixpoint for_each {A B} (f : A -> outcome B) (l : list A) : outcome (list B) :=
  match l with
  | [] => Return []
  | x :: l' => y ← f x; ys ← for_each f l'; Return (y :: ys)
  end.

(** ** Declarative classes

    What a class body binds a name to.  A [declared_attr] is evaluated with
    the class that is being mapped, so a class body is a function of the
    name of that class. *)

Inductive declared :=
| Column
| Relationship (target : string)
| Member.

#[global] Instance declared_eq_dec : EqDecision declared.
Proof. solve_decision. Defined.

Definition class_body := string -> list (string * declared).

Record pyclass := {
  class_name : string;
  own : list (string * declared);
  bases : list class_body }.

(** [getattr(cls, name)]: the class itself, then its bases in the order of
    the method resolution order. *)
Definition class_getattr (cls : pyclass) (name : string) : option declared :=
  assoc name
    (own cls ++ List.concat ((fun base => base (class_name cls)) <$> bases cls))%list.

Definition IdNameDescriptionMixin : class_body := fun _ =>
  [("id", Column); ("name", Column); ("description", Column)].

(** An instance of a mapped class, with the rows of the annotation tables
    that point to it, by table name. *)
Record instance := {
  class_of : pyclass;
  annotations : string -> list row }.

(** [self.name] for a collection: the relationship that the class binds
    [name] to is loaded from its target. *)
Definition collection (self : instance) (name : string) : outcome (list row) :=
  match class_getattr (class_of self) name with
  | Some (Relationship target) => Return (annotations self target)
  | Some Column | Some Member | None => Raise (AttributeError name)
  end.

Module HasFilesMixin.
Definition filesdict (self : instance)
    : outcome (gmap (option string) (option File.t)) :=
  files ← collection self "files";
  pairs ← for_each (fun f => name ← row_name f; file ← row_file f;
                            Return (name, file)) files;
  Return (dict pairs).

Definition body : class_body := fun cls =>
  [("filesdict", Member); ("data", Relationship (cls ++ "_files"))].
End HasFilesMixin.

Module HasDataMixin.
Definition datadict (self : instance)
    : outcome (gmap (option string) (option string)) :=
  data ← collection self "data";
  pairs ← for_each (fun d => key ← row_key d; value ← row_value d;
                            Return (key, value)) data;
  Return (dict pairs).

Definition body : class_body := fun cls =>
  [("datadict", Member); ("data", Relationship (cls ++ "_data"))].
End HasDataMixin.

(** ** The classes that carry annotations

    [Base], [PolymorphicBaseMixin] and [Versioned] are defined in
    [clld.db.meta] and [clld.db.versioned]; what their bodies bind is a
    parameter here.  The attributes a class gets through the [backref] of a
    relationship are listed with its own. *)

Section classes.
Variables Base PolymorphicBaseMixin Versioned : class_body.

Definition Language_class : pyclass :=
  {| class_name := "Language";
     own := [("latitude", Column); ("longitude", Column);
             ("identifiers", Member);
             ("values", Relationship "Value");
             ("languageidentifier", Relationship "LanguageIdentifier")];
     bases := [Base; PolymorphicBaseMixin; Versioned; IdNameDescriptionMixin;
               HasDataMixin.body; HasFilesMixin.body] |}.

Definition DomainElement_class : pyclass :=
  {| class_name := "DomainElement";
     own := [("parameter_pk", Column);
             ("parameter", Relationship "Parameter");
             ("values", Relationship "Value")];
     bases := [Base; PolymorphicBaseMixin; Versioned; IdNameDescriptionMixin;
               HasDataMixin.body; HasFilesMixin.body] |}.

Definition Parameter_class : pyclass :=
  {| class_name := "Parameter";
     own := [("domain", Relationship "DomainElement"); ("languages", Member);
             ("values", Relationship "Value")];
     bases := [Base; PolymorphicBaseMixin; Versioned; IdNameDescriptionMixin;
               HasDataMixin.body; HasFilesMixin.body] |}.

Definition Source_class : pyclass :=
  {| class_name := "Source";
     own := [("glottolog_id", Column); ("google_book_search_id", Column);
             ("valuereferences", Relationship "ValueReference");
             ("sentencereferences", Relationship "SentenceReference")];
     bases := [Base; PolymorphicBaseMixin; Versioned; IdNameDescriptionMixin;
               HasDataMixin.body; HasFilesMixin.body] |}.

Definition Contribution_class : pyclass :=
  {| class_name := "Contribution";
     own := [("date", Column); ("primary_contributors", Member);
             ("secondary_contributors", Member);
             ("values", Relationship "Value");
             ("unitvalues", Relationship "UnitValue");
             ("contributor_assocs", Relationship "ContributionContributor")];
     bases := [Base; PolymorphicBaseMixin; Versioned; IdNameDescriptionMixin;
               HasDataMixin.body; HasFilesMixin.body] |}.

Definition Value_class : pyclass :=
  {| class_name := "Value";
     own := [("language_pk", Column); ("parameter_pk", Column);
             ("contribution_pk", Column); ("domainelement_pk", Column);
             ("frequency", Column);
             ("parameter", Relationship "Parameter");
             ("domainelement", Relationship "DomainElement");
             ("contribution", Relationship "Contribution");
             ("language", Relationship "Language");
             ("validate_parameter_pk", Member);
             ("references", Relationship "ValueReference")];
     bases := [Base; PolymorphicBaseMixin; Versioned; IdNameDescriptionMixin;
               HasDataMixin.body; HasFilesMixin.body] |}.

Definition Contributor_class : pyclass :=
  {| class_name := "Contributor";
     own := [("url", Column); ("email", Column); ("address", Column);
             ("contribution_assocs", Relationship "ContributionContributor")];
     bases := [Base; PolymorphicBaseMixin; Versioned; IdNameDescriptionMixin;
               HasDataMixin.body; HasFilesMixin.body] |}.

Definition Sentence_class : pyclass :=
  {| class_name := "Sentence";
     own := [("references", Relationship "SentenceReference")];
     bases := [Base; PolymorphicBaseMixin; Versioned;
               HasDataMixin.body; HasFilesMixin.body] |}.

Definition Unit_class : pyclass :=
  {| class_name := "Unit";
     own := [("language_pk", Column); ("language", Relationship "Language");
             ("unitvalues", Relationship "UnitValue");
             ("unitparameter_assocs", Relationship "UnitParameterUnit")];
     bases := [Base; PolymorphicBaseMixin; Versioned; IdNameDescriptionMixin;
               HasDataMixin.body; HasFilesMixin.body] |}.

Definition UnitDomainElement_class : pyclass :=
  {| class_name := "UnitDomainElement";
     own := [("unitparameter_pk", Column); ("ord", Column);
             ("parameter", Relationship "UnitParameter");
             ("unitvalues", Relationship "UnitValue")];
     bases := [Base; PolymorphicBaseMixin; Versioned; IdNameDescriptionMixin;
               HasDataMixin.body; HasFilesMixin.body] |}.

Definition UnitParameter_class : pyclass :=
  {| class_name := "UnitParameter";
     own := [("domain", Relationship "UnitDomainElement");
             ("unitvalues", Relationship "UnitValue");
             ("unit_assocs", Relationship "UnitParameterUnit")];
     bases := [Base; PolymorphicBaseMixin; Versioned; IdNameDescriptionMixin;
               HasDataMixin.body; HasFilesMixin.body] |}.

Definition UnitValue_class : pyclass :=
  {| class_name := "UnitValue";
     own := [("unit_pk", Column); ("unitparameter_pk", Column);
             ("contribution_pk", Column); ("unitdomainelement_pk", Column);
             ("frequency", Column);
             ("unitparameter", Relationship "UnitParameter");
             ("unitdomainelement", Relationship "UnitDomainElement");
             ("contribution", Relationship "Contribution");
             ("unit", Relationship "Unit");
             ("validate_parameter_pk", Member)];
     bases := [Base; PolymorphicBaseMixin; Versioned; IdNameDescriptionMixin;
               HasDataMixin.body; HasFilesMixin.body] |}.

(** Every class of the module that mixes in [HasFilesMixin] (each of them
    mixes in [HasDataMixin] too, and names it first). *)
Definition annotated_classes : list pyclass :=
  [Language_class; DomainElement_class; Parameter_class; Source_class;
   Contribution_class; Value_class; Contributor_class; Sentence_class;
   Unit_class; UnitDomainElement_class; UnitParameter_class; UnitValue_class].
End classes.

(** Bodies of the three base classes that bind the columns every table has
    and nothing else; used to run the definitions above on examples. *)
Definition plain_Base : class_body := fun _ => [("pk", Column)].
Definition plain_mixin : class_body := fun _ => [].

(** ** Examples *)

Definition example_domainelement : DomainElement.t :=
  DomainElement.mk (Some 10) (Some "de") (Some "yes") None (Some 1).

Definition example_value : Value.t :=
  Value.mk (PyInt 7) (PyInt 3) PyNone PyNone (PyInt 10)
    (PyDomainElement example_domainelement) PyNone.

Definition other_domainelement : DomainElement.t :=
  DomainElement.mk (Some 11) (Some "de2") (Some "no") None (Some 2).

Definition value_with_parameter : Value.t :=
  Value.mk (PyInt 7) (PyInt 3) (PyInt 1) PyNone PyNone PyNone PyNone.

Definition example_unitdomainelement : UnitDomainElement.t :=
  UnitDomainElement.mk (Some 20) (Some "ude") (Some "long") None (Some 1) None.

Definition example_unitvalue : UnitValue.t :=
  UnitValue.mk (PyInt 8) (PyInt 5) PyNone PyNone (PyInt 20)
    (PyUnitDomainElement example_unitdomainelement).

Definition identifier_types : list pyobj :=
  [PyStr "wals"; PyStr "iso639-3"; PyStr "glottolog"].

(** The accessor as the specification words it: the sequence of
    (language, group of its values) pairs. *)
Definition languages_spec (self : Parameter_.t) : list (pyobj * list Value.t) :=
  groupby Value.language (Parameter_.values self).

Definition L1 : Language.t := Language.mk (Some 1) (Some "l1") (Some "One") None.
Definition L2 : Language.t := Language.mk (Some 2) (Some "l2") (Some "Two") None.

Definition value_of (pk : Z) (l : Language.t) : Value.t :=
  Value.mk (PyInt pk) (of_int (Language.pk l)) (PyInt 1) PyNone PyNone PyNone
    (PyLanguage l).

Definition v1 : Value.t := value_of 1 L1.
Definition v2 : Value.t := value_of 2 L1.
Definition v3 : Value.t := value_of 3 L2.

Definition parameter_with (values : list Value.t) : Parameter_.t :=
  Parameter_.mk (Some 1) (Some "p") (Some "Order") None [] values.

(** A list is in ascending order of its keys when no item's key is less
    than the key of an item before it. *)
Definition ascending {A K} (lt : K -> K -> bool) (key : A -> K)
    (l : list A) : Prop :=
  StronglySorted (fun a b => lt (key b) (key a) = false) l.

Definition contribution_with (assocs : list ContributionContributor.t)
    : Contribution.t :=
  Contribution.mk (Some 1) (Some "c") (Some "Grammar") None assocs.

Definition contributor_named (pk : Z) (name : string) : Contributor.t :=
  Contributor.mk (Some pk) (Some name) (Some name) None None None None.

Definition A : Contributor.t := contributor_named 1 "A".
Definition B : Contributor.t := contributor_named 2 "B".
Definition C : Contributor.t := contributor_named 3 "C".

Definition credit (contributor : Contributor.t) (ord : Z) (primary : bool)
    : ContributionContributor.t :=
  ContributionContributor.insert
    (ContributionContributor.new contributor (Some ord) (Some primary)).

(** An association as the constructor leaves it when neither [ord] nor
    [primary] is supplied, and the same association once inserted. *)
Definition unsaved_credit (contributor : Contributor.t)
    : ContributionContributor.t :=
  ContributionContributor.new contributor None None.

Definition default_credit (contributor : Contributor.t)
    : ContributionContributor.t :=
  ContributionContributor.insert (unsaved_credit contributor).

Definition example_file : File.t :=
  File.mk (Some 1) (Some "audio.wav") (Some "audio/x-wav") None.

Definition files_row (name : string) (f : File.t) : row :=
  FilesRow (FilesMixin.mk None (Some name) (Some 1) (File.pk f) (Some f) (Some 1)).

Definition data_record (key value : string) : DataMixin.t :=
  DataMixin.mk None (Some key) (Some value) (Some 1) (Some 1).

(** A language with the given rows in [Language_data] and one row in
    [Language_files]. *)
Definition example_language (data : list DataMixin.t) : instance :=
  {| class_of := Language_class plain_Base plain_mixin plain_mixin;
     annotations := fun table =>
       if String.eqb table "Language_data" then DataRow <$> data
       else if String.eqb table "Language_files"
            then [files_row "audio" example_file]
            else [] |}.

(** The pair that [datadict] takes from a record. *)
Definition key_value (d : DataMixin.t) : option string * option string :=
  (DataMixin.key d, DataMixin.value d).

(** The round trip as the specification words it: one data record per entry
    of the mapping. *)
Definition records_of_dict (d : gmap (option string) (option string))
    : list DataMixin.t :=
  (fun '(key, value) => DataMixin.mk None key value None None)
    <$> map_to_list d.

Definition reference (pk : Z) (key : string) (value_pk : Z) : ValueReference.t :=
  ValueReference.mk (Some pk) (Some key) None (Some 1) (Some value_pk).

Definition sentence_reference (pk : Z) (key : string) (sentence_pk : Z)
    : SentenceReference.t :=
  SentenceReference.mk (Some pk) (Some key) None (Some 1) (Some sentence_pk).

(** ** Further members of the model classes *)

(** [Identifier.url]: the method returns a URL for identifiers of type
    'wals' and falls off its end, returning [None], for the others. *)
Definition Identifier_url (self : Identifier.t) : pyobj :=
  if py_eq (Identifier.type self) (PyStr "wals")
  then PyStr "http://wals.info/..."
  else PyNone.

(** [Parameter.domain]:
    [relationship('DomainElement', backref='parameter',
                  order_by=DomainElement.id)] *)
Definition Parameter_domain (collation : option string -> option string -> bool)
    (domainelement : list DomainElement.t) (parameter_pk : Z)
    : list DomainElement.t :=
  load_ordered collation DomainElement.parameter_pk DomainElement.id
    domainelement parameter_pk.

(** [UnitParameter.domain]:
    [relationship('UnitDomainElement', backref='parameter',
                  order_by=UnitDomainElement.id)] *)
Definition UnitParameter_domain
    (collation : option string -> option string -> bool)
    (unitdomainelement : list UnitDomainElement.t) (unitparameter_pk : Z)
    : list UnitDomainElement.t :=
  load_ordered collation UnitDomainElement.unitparameter_pk UnitDomainElement.id
    unitdomainelement unitparameter_pk.

(** The items that share a key stand next to each other: between two items
    with the same key there is no item with another key. *)
Definition grouped {X K} (key : X -> K) (l : list X) : Prop :=
  forall (i j k : nat) (x y z : X),
    (i < j < k)%nat ->
    l !! i = Some x -> l !! j = Some y -> l !! k = Some z ->
    key x = key z -> key y = key x.


Definition domainelement_of (pk : Z) (id : string) (parameter_pk : Z)
    : DomainElement.t :=
  DomainElement.mk (Some pk) (Some id) (Some id) None (Some parameter_pk).

(** * clld.scripts.util

    [Data]: a [defaultdict(dict)] that keeps the objects created during an
    import, by the name of their mapper class and a key, and hands each of
    them to the database session. *)

Module Data.
Section defaultdict.
Context {object : Type}.

(** A mapper class as [add] uses it: the result of [model.mapper_name()]
    and of calling the class with keyword arguments. *)
Record model := {
  mapper_name : string;
  call : gmap string object -> object }.

Record t := mk {
  items : gmap string (gmap string object);
  defaults : gmap string object }.

(** [Data( **kw )] *)
Definition new (kw : gmap string object) : t := mk ∅ kw.

(** [self[name]]: a missing name gets an empty dictionary, which is stored
    and returned. *)
Definition getitem (self : t) (name : string) : gmap string object * t :=
  match items self !! name with
  | Some d => (d, self)
  | None => (∅, mk (<[name := ∅]> (items self)) (defaults self))
  end.

(** [kw.setdefault(k, v)] *)
Definition setdefault (kw : gmap string object) (k : string) (v : object)
    : gmap string object :=
  match kw !! k with
  | Some _ => kw
  | None => <[k := v]> kw
  end.

(** [self.add(model, key, **kw)], with the objects handed to
    [DBSession.add] so far; the result is the object returned, the
    dictionary and the session afterwards. *)
Definition add (self : t) (DBSession : list object) (model : model)
    (key : string) (kw : gmap string object) : object * t * list object :=
  let constructed :=
    call model
      (foldl (fun kw '(k, v) => setdefault kw k v) kw
         (map_to_list (defaults self))) in
  let new :=
    match map_to_list kw with
    | [(k, obj)] => if String.eqb k "_obj" then obj else constructed
    | _ => constructed
    end in
  let '(inner, self) := getitem self (mapper_name model) in
  (new,
   mk (<[mapper_name model := <[key := new]> inner]> (items self))
      (defaults self),
   DBSession ++ [new])%list.

(** [self[name][key]] for reading, without storing anything. *)
Definition lookup (self : t) (name key : string) : option object :=
  items self !! name ≫= fun inner => inner !! key.
End defaultdict.
End Data.

(** A mapper class for examples: its objects are numbers, and calling it
    returns the [id] keyword, or 0 without one. *)
Definition Language_model : Data.model (object := Z) :=
  {| Data.mapper_name := "Language";
     Data.call := fun kw => default 0 (kw !! "id") |}.

(** * clld.web.views *)

(** [s.split(sep)] for a separator of one character. *)
Fixpoint split (sep : ascii) (s : string) : list string :=
  match s with
  | EmptyString => [EmptyString]
  | String c rest =>
      if Ascii.eqb c sep then EmptyString :: split sep rest
      else match split sep rest with
           | head :: tail => String c head :: tail
           | [] => [String c EmptyString]
           end
  end.

(** [sep.join(l)] *)
Fixpoint join (sep : string) (l : list string) : string :=
  match l with
  | [] => EmptyString
  | x :: l' =>
      match l' with
      | [] => x
      | _ :: _ => x ++ sep ++ join sep l'
      end
  end.

(** [s.endswith(suffix)] *)
Definition endswith (s suffix : string) : bool :=
  (String.length suffix <=? String.length s)%nat
  && String.eqb (substring (String.length s - String.length suffix)
                   (String.length suffix) s) suffix.

(** [s[:-n]] *)
Definition drop_last (n : nat) (s : string) : string :=
  substring 0 (String.length s - n) s.

(** What a view raises. *)
Inductive raised :=
| HTTPFound (location : string)
| HTTPNotFound
| HTTPNotAcceptable
| HTTPGone
| KeyError (key : string)
| TypeError.

Inductive result (A : Type) :=
| Ok (a : A)
| Throw (e : raised).
Arguments Ok {A} a.
Arguments Throw {A} e.

(** The parameters of a request: the (name, value) pairs in their order; a
    name can occur several times. *)
Definition params := list (string * string).

(** [key in req.params] *)
Definition has_param (key : string) (p : params) : bool :=
  existsb (fun kv => String.eqb kv.1 key) p.

(** [req.params.getall(key)] *)
Definition getall (p : params) (key : string) : list string :=
  (List.filter (fun kv => String.eqb kv.1 key) p).*2.

(** [req.params[key]].  Here it is read only when the name has exactly one
    value. *)
Definition getparam (p : params) (key : string) : result string :=
  match assoc key p with
  | Some value => Ok value
  | None => Throw (KeyError key)
  end.

Section select_combination.
(** [Combination.delimiter], and [req.route_url(name, **kw)]. *)
Variable delimiter : string.
Variable route_url : string -> list (string * string) -> string.

(** The view never returns: the result is what it raises. *)
Definition select_combination (p : params) : raised :=
  if has_param "parameters" p then
    let ids := getall p "parameters" in
    match (if (1 <? List.length ids)%nat then Ok (join delimiter ids)
           else match getparam p "parameters" with
                | Ok value => Ok (join delimiter (split "," value))
                | Throw e => Throw e
                end) with
    | Ok id_ => HTTPFound (route_url "combination" [("id", id_)])
    | Throw e => e
    end
  else HTTPNotFound.
End select_combination.

(** A string without a comma. *)
Definition no_comma (s : string) : Prop :=
  ~ In ","%char (list_ascii_of_string s).

(** ** Link headers *)

Module Adapter.
Record t := mk {
  rel : option string;
  mimetype : option string;
  send_mimetype : option string;
  extension : option string }.
End Adapter.

Record Response := {
  body : string;
  headerlist : list (string * string) }.

(** Truth value of an attribute that holds a string or [None]. *)
Definition str_truthy (s : option string) : bool :=
  match s with
  | Some s => negb (String.eqb s EmptyString)
  | None => false
  end.

(** [a or b] *)
Definition py_or (a b : option string) : option string :=
  if str_truthy a then a else b.

(** [str(s)] *)
Definition str (s : option string) : string :=
  match s with
  | Some s => s
  | None => "None"
  end.

(** The double quote character, as a string. *)
Definition quote : string := String (ascii_of_nat 34) EmptyString.

(** ['<%s>; rel="%s"; type="%s"' % (url, rel, mimetype)] *)
Definition link (url rel mimetype : string) : string :=
  "<" ++ url ++ ">; rel=" ++ quote ++ rel ++ quote
      ++ "; type=" ++ quote ++ mimetype ++ quote.

(** [_add_link_header(response, url, adapter, rel, mimetype)]; the callers
    that leave [rel] and [mimetype] out get the defaults ['canonical'] and
    ['text/html']. *)
Definition _add_link_header (response : Response) (url : string)
    (adapter : option Adapter.t) (rel mimetype : option string) : Response :=
  let rel :=
    match adapter with Some a => Adapter.rel a | None => rel end in
  let mimetype :=
    match adapter with
    | Some a => py_or (Adapter.send_mimetype a) (Adapter.mimetype a)
    | None => mimetype
    end in
  if str_truthy mimetype && str_truthy rel then
    {| body := body response;
       headerlist :=
         (headerlist response
            ++ [("Link", link url (str rel) (str mimetype))])%list |}
  else response.

Inductive interface := IRepresentation | IIndex | IMetadata.

Section views.
Context {context request : Type}.
(** What the views read from the request and from [clld.web.adapters]:
    the name of the matched route, if a route matched; the URLs that the
    request builds; whether it is an XMLHttpRequest, and its parameters; the adapter chosen for the request with the list of
    all adapters (the [ext] argument of [get_adapter] is read from the
    request); and what an adapter renders. *)
Variable matched_route : request -> option string.
Variable resource_url : request -> context -> list (string * string) -> string.
Variable route_url : request -> string -> list (string * string) -> string.
Variable get_adapter :
  interface -> context -> request -> option Adapter.t * list Adapter.t.
Variable render_to_response : Adapter.t -> context -> request -> Response.
Variable is_xhr : request -> bool.
Variable req_params : request -> params.
Variable datatable_xhr_view : context -> request -> result Response.

Definition view (interface : interface) (ctx : context) (req : request)
    (getadapters : bool) : result (Response + Response * list Adapter.t) :=
  let '(adapter, adapters) := get_adapter interface ctx req in
  match adapter with
  | None => Throw HTTPNotAcceptable
  | Some adapter =>
      let res := render_to_response adapter ctx req in
      Ok (if getadapters then inr (res, adapters) else inl res)
  end.

(** [res, adapters = view(...)] *)
Definition unpack (r : Response + Response * list Adapter.t)
    : result (Response * list Adapter.t) :=
  match r with
  | inr res_adapters => Ok res_adapters
  | inl _ => Throw TypeError
  end.

Definition index_view (ctx : context) (req : request) : result Response :=
  if is_xhr req && has_param "sEcho" (req_params req)
  then datatable_xhr_view ctx req
  else
    match view IIndex ctx req true with
    | Throw e => Throw e
    | Ok r =>
        match unpack r with
        | Throw e => Throw e
        | Ok (res, adapters) =>
            Ok match matched_route req with
               | Some name =>
                   if endswith name "_alt" then
                     _add_link_header res (route_url req (drop_last 4 name) [])
                       None (Some "canonical") (Some "text/html")
                   else
                     foldl (fun res a =>
                              _add_link_header res
                                (route_url req (name ++ "_alt")
                                   [("ext", str (Adapter.extension a))])
                                (Some a) (Some "canonical") (Some "text/html"))
                       res
                       (List.filter
                          (fun a => str_truthy (Adapter.rel a)
                                    && str_truthy (Adapter.extension a))
                          adapters)
               | None => res
               end
        end
    end.

Definition resource_view (ctx : context) (req : request) : result Response :=
  match view IRepresentation ctx req true with
  | Throw e => Throw e
  | Ok r =>
      match unpack r with
      | Throw e => Throw e
      | Ok (res, adapters) =>
          Ok match matched_route req with
             | Some name =>
                 if endswith name "_alt" then
                   _add_link_header res (resource_url req ctx [])
                     None (Some "canonical") (Some "text/html")
                 else
                   foldl (fun res a =>
                            if str_truthy (Adapter.rel a)
                               && str_truthy (Adapter.extension a)
                            then
                              _add_link_header res
                                (resource_url req ctx
                                   [("ext", str (Adapter.extension a))])
                                (Some a) (Some "canonical") (Some "text/html")
                            else res)
                     res adapters
             | None => res
             end
      end
  end.
End views.

(** An adapter is given a link header when its [rel], its [extension] and
    its mime type ([send_mimetype], or else [mimetype]) are all set. *)
Definition linked (a : Adapter.t) : bool :=
  str_truthy (Adapter.rel a) && str_truthy (Adapter.extension a)
  && str_truthy (py_or (Adapter.send_mimetype a) (Adapter.mimetype a)).

Definition snippet_adapter : Adapter.t :=
  Adapter.mk None (Some "text/html") None (Some "snippet.html").

(** * Properties *)

(** ** Validation on assignment *)

Lemma assoc_singleton_ne {A} (key name : string) (a : A) :
  key <> name -> assoc key [(name, a)] = None.
Proof.
  intros Hne. simpl. apply String.eqb_neq in Hne. now rewrite Hne.
Qed.

Lemma py_eq_true (a b : pyobj) : py_eq a b = true <-> a = b.
Proof. unfold py_eq. apply bool_decide_eq_true. Qed.

Lemma py_eq_false (a b : pyobj) : py_eq a b = false <-> a <> b.
Proof. unfold py_eq. apply bool_decide_eq_false. Qed.

Lemma Value_setattr_parameter_pk (v : Value.t) (value : pyobj) :
  Value.setattr v "parameter_pk" value =
  (Value.validate_parameter_pk v "parameter_pk" value ≫= fun stored =>
   Return (Value.store v "parameter_pk" stored)).
Proof. reflexivity. Qed.

Lemma Value_validate_with_domainelement (v : Value.t) (d : DomainElement.t)
    (key : string) (value : pyobj) :
  Value.domainelement v = PyDomainElement d ->
  Value.validate_parameter_pk v key value =
  if py_eq (of_int (DomainElement.parameter_pk d)) value
  then Return value else Raise AssertionError.
Proof.
  intros Hd. unfold Value.validate_parameter_pk. rewrite Hd. simpl.
  now destruct (py_eq _ value).
Qed.

(** C1: for a Value whose domainelement is set, assigning [parameter_pk]
    raises AssertionError when the domain element's [parameter_pk] differs
    from the incoming value; otherwise the validator returns the incoming
    value and the assignment stores it.  Hence, whatever was assigned
    before, after a successful assignment of [parameter_pk] the domain
    element's [parameter_pk] equals the Value's [parameter_pk]. *)
Theorem Value_parameter_pk_in_sync (v : Value.t) (d : DomainElement.t)
    (parameter_pk : pyobj) :
  Value.domainelement v = PyDomainElement d ->
  (of_int (DomainElement.parameter_pk d) <> parameter_pk ->
   Value.setattr v "parameter_pk" parameter_pk = Raise AssertionError) /\
  (of_int (DomainElement.parameter_pk d) = parameter_pk ->
   Value.validate_parameter_pk v "parameter_pk" parameter_pk = Return parameter_pk /\
   Value.setattr v "parameter_pk" parameter_pk =
     Return (Value.store v "parameter_pk" parameter_pk)) /\
  (forall v', Value.setattr v "parameter_pk" parameter_pk = Return v' ->
     Value.parameter_pk v' = parameter_pk /\
     Value.domainelement v' = PyDomainElement d /\
     getattr (Value.domainelement v') "parameter_pk" = Return (Value.parameter_pk v')).
Proof.
  intros Hd.
  rewrite Value_setattr_parameter_pk,
    (Value_validate_with_domainelement v d "parameter_pk" parameter_pk Hd).
  repeat split.
  - intros Hne. apply py_eq_false in Hne. now rewrite Hne.
  - apply py_eq_true in H. now rewrite H.
  - apply py_eq_true in H. now rewrite H.
  - destruct (py_eq _ parameter_pk) eqn:E; simpl in H; [|discriminate].
    now inversion H.
  - destruct (py_eq _ parameter_pk) eqn:E; simpl in H; [|discriminate].
    inversion H. exact Hd.
  - destruct (py_eq _ parameter_pk) eqn:E; simpl in H; [|discriminate].
    inversion H; subst v'. unfold Value.store; simpl. rewrite Hd.
    apply py_eq_true in E. unfold getattr; simpl. now rewrite E.
Qed.

Lemma Value_parameter_pk_in_sync_witness :
  Value.setattr example_value "parameter_pk" (PyInt 2) = Raise AssertionError /\
  Value.setattr example_value "parameter_pk" (PyInt 1) =
    Return (Value.store example_value "parameter_pk" (PyInt 1)).
Proof.
  destruct (Value_parameter_pk_in_sync example_value example_domainelement
              (PyInt 2) eq_refl) as [Hfail _].
  destruct (Value_parameter_pk_in_sync example_value example_domainelement
              (PyInt 1) eq_refl) as [_ [Hok _]].
  split.
  - apply Hfail. discriminate.
  - apply Hok. reflexivity.
Defined.

(** C6: assigning [domainelement] to a Value never runs the check: the
    assignment stores the object, whatever parameter it belongs to and
    whatever [parameter_pk] the Value already has.  The only validator of
    the class is registered for [parameter_pk], so the assignment of any
    other attribute succeeds, and the assignment of [parameter_pk] runs
    [validate_parameter_pk]. *)
Theorem Value_domainelement_unchecked (v : Value.t) (domainelement : pyobj) :
  Value.setattr v "domainelement" domainelement =
    Return (Value.store v "domainelement" domainelement) /\
  Value.domainelement (Value.store v "domainelement" domainelement) = domainelement /\
  Value.parameter_pk (Value.store v "domainelement" domainelement) = Value.parameter_pk v /\
  (forall key value, key <> "parameter_pk" ->
     Value.setattr v key value = Return (Value.store v key value)) /\
  (forall value, Value.setattr v "parameter_pk" value =
     (Value.validate_parameter_pk v "parameter_pk" value ≫= fun stored =>
      Return (Value.store v "parameter_pk" stored))).
Proof.
  repeat split.
  intros key value Hne. unfold Value.setattr, validated, Value.validators.
  now rewrite (assoc_singleton_ne _ _ _ Hne).
Qed.

Lemma Value_domainelement_unchecked_witness :
  Value.setattr value_with_parameter "domainelement"
    (PyDomainElement other_domainelement) =
  Return (Value.mk (PyInt 7) (PyInt 3) (PyInt 1) PyNone PyNone
            (PyDomainElement other_domainelement) PyNone) /\
  Value.setattr value_with_parameter "language_pk" (PyInt 4) =
  Return (Value.store value_with_parameter "language_pk" (PyInt 4)).
Proof.
  destruct (Value_domainelement_unchecked value_with_parameter
              (PyDomainElement other_domainelement)) as [H1 [_ [_ [H4 _]]]].
  split.
  - exact H1.
  - apply H4. discriminate.
Defined.

(** C2, which the code does not satisfy: the validator of UnitValue is
    registered under the name [parameter_pk], and the class has no attribute
    of that name, so assigning [unitparameter_pk] runs no check.  For a
    UnitValue whose unit domain element has [unitparameter_pk = 1], the
    method itself raises AssertionError on the incoming value 2, but the
    assignment of 2 to [unitparameter_pk] succeeds and stores it, as every
    assignment to [unitparameter_pk] does. *)
Theorem UnitValue_unitparameter_pk_unchecked :
  UnitValue.validate_parameter_pk example_unitvalue "unitparameter_pk" (PyInt 2)
    = Raise AssertionError /\
  UnitValue.setattr example_unitvalue "unitparameter_pk" (PyInt 2)
    = Return (UnitValue.mk (PyInt 8) (PyInt 5) (PyInt 2) PyNone (PyInt 20)
                (PyUnitDomainElement example_unitdomainelement)) /\
  (forall u value, UnitValue.setattr u "unitparameter_pk" value
                   = Return (UnitValue.store u "unitparameter_pk" value)).
Proof. repeat split. Qed.

(** ** Identifier types *)

Lemma py_in_elem_of (x : pyobj) (xs : list pyobj) :
  py_in x xs = true <-> x ∈ xs.
Proof.
  unfold py_in. rewrite existsb_exists. split.
  - intros [y [Hy Heq]]. apply py_eq_true in Heq. subst y.
    now apply list_elem_of_In.
  - intros Hx. exists x. split; [now apply list_elem_of_In | now apply py_eq_true].
Qed.

Lemma Identifier_validate_type_member (i : Identifier.t) (key : string)
    (type : pyobj) :
  Identifier.validate_type i key type =
  if py_in type identifier_types then Return type else Raise AssertionError.
Proof.
  unfold Identifier.validate_type, identifier_types.
  now destruct (py_in type _).
Qed.

(** C7: assigning [type] to an Identifier succeeds exactly when the value is
    one of 'wals', 'iso639-3', 'glottolog', and then stores the value; any
    other assignment raises AssertionError.  So a type stored by an
    assignment is a member of that enumeration. *)
Theorem Identifier_type_enumeration (i : Identifier.t) (type : pyobj) :
  (type ∈ [PyStr "wals"; PyStr "iso639-3"; PyStr "glottolog"] ->
   Identifier.setattr i "type" type = Return (Identifier.store i "type" type) /\
   Identifier.type (Identifier.store i "type" type) = type) /\
  (type ∉ [PyStr "wals"; PyStr "iso639-3"; PyStr "glottolog"] ->
   Identifier.setattr i "type" type = Raise AssertionError) /\
  (forall i', Identifier.setattr i "type" type = Return i' ->
   Identifier.type i' = type /\
   Identifier.type i' ∈ [PyStr "wals"; PyStr "iso639-3"; PyStr "glottolog"]).
Proof.
  assert (Hset : Identifier.setattr i "type" type =
                 if py_in type identifier_types
                 then Return (Identifier.store i "type" type)
                 else Raise AssertionError).
  { change (Identifier.setattr i "type" type) with
      (Identifier.validate_type i "type" type ≫= fun stored =>
       Return (Identifier.store i "type" stored)).
    rewrite Identifier_validate_type_member. now destruct (py_in _ _). }
  rewrite Hset. fold identifier_types. split; [|split].
  - intros Hin. apply py_in_elem_of in Hin. now rewrite Hin.
  - intros Hnot. destruct (py_in type identifier_types) eqn:E; [|reflexivity].
    apply py_in_elem_of in E. contradiction.
  - intros i' Hret. destruct (py_in type identifier_types) eqn:E; [|discriminate].
    inversion Hret; subst i'. split; [reflexivity|].
    apply py_in_elem_of in E. exact E.
Qed.

Lemma Identifier_type_enumeration_witness :
  Identifier.setattr Identifier.new "type" (PyStr "iso639-3") =
    Return (Identifier.mk PyNone PyNone PyNone PyNone (PyStr "iso639-3")) /\
  Identifier.setattr Identifier.new "type" (PyStr "ethnologue") =
    Raise AssertionError.
Proof.
  split.
  - apply (Identifier_type_enumeration Identifier.new (PyStr "iso639-3")).
    apply py_in_elem_of. reflexivity.
  - apply (Identifier_type_enumeration Identifier.new (PyStr "ethnologue")).
    intros Hin. apply py_in_elem_of in Hin. discriminate Hin.
Defined.

(** ** Grouping of the values of a parameter *)

Section groupby_facts.
Context {A K : Type} `{EqDecision K} (key : A -> K).

Lemma groupby_cons (x : A) (l : list A) :
  exists g groups, groupby key (x :: l) = (key x, x :: g) :: groups.
Proof.
  simpl. destruct (groupby key l) as [|[k g] groups]; [by eauto|].
  destruct (decide (key x = k)) as [->|]; eauto.
Qed.

Lemma groupby_concat (l : list A) :
  List.concat ((groupby key l).*2) = l.
Proof.
  induction l as [|x l IH]; [done|]. simpl.
  destruct (groupby key l) as [|[k g] groups].
  - simpl in *. by rewrite <- IH.
  - destruct (decide (key x = k)); simpl in *; by rewrite <- IH.
Qed.

Lemma groupby_groups (l : list A) :
  Forall (fun g => g.2 <> [] /\ Forall (fun x => key x = g.1) g.2)
         (groupby key l).
Proof.
  induction l as [|x l IH]; [by constructor|]. simpl.
  destruct (groupby key l) as [|[k g] groups].
  - repeat constructor. done.
  - inversion IH as [|? ? [Hne Hg] Hrest]; subst.
    destruct (decide (key x = k)) as [Hk|Hk].
    + constructor; [|done]. split; [done|]. by constructor.
    + constructor; [|by constructor]. split; [done|]. by repeat constructor.
Qed.

Lemma groupby_adjacent (l : list A) (i : nat) (k k' : K) :
  (groupby key l).*1 !! i = Some k ->
  (groupby key l).*1 !! S i = Some k' ->
  k <> k'.
Proof.
  revert i k k'. induction l as [|x l IH]; intros i k k'; [done|]. simpl.
  destruct (groupby key l) as [|[k0 g] groups]; [done|].
  destruct (decide (key x = k0)) as [Hk|Hk].
  - apply IH.
  - destruct i as [|i]; simpl.
    + intros [= <-] [= <-]. done.
    + apply IH.
Qed.
End groupby_facts.

(** C3, as the code has it: the accessor yields the owning languages only,
    one per maximal run of values with the same language, in the order of
    the stored values.  That is, the values split into consecutive non-empty
    groups, all values of a group have the language yielded for it, and
    neighbouring groups have different languages. *)
Theorem Parameter_languages_runs (p : Parameter_.t) :
  exists groups : list (pyobj * list Value.t),
    Parameter_.languages p = groups.*1 /\
    List.concat (groups.*2) = Parameter_.values p /\
    Forall (fun g => g.2 <> [] /\ Forall (fun v => Value.language v = g.1) g.2)
           groups /\
    forall i language language',
      Parameter_.languages p !! i = Some language ->
      Parameter_.languages p !! S i = Some language' ->
      language <> language'.
Proof.
  assert (Hfst : Parameter_.languages p
                 = (groupby Value.language (Parameter_.values p)).*1).
  { unfold Parameter_.languages. apply list_fmap_ext. by intros ? [? ?]. }
  exists (groupby Value.language (Parameter_.values p)).
  split; [exact Hfst|]. split; [apply groupby_concat|].
  split; [apply groupby_groups|].
  rewrite Hfst. apply groupby_adjacent.
Qed.

Lemma Parameter_languages_runs_witness :
  Parameter_.languages (parameter_with [v1; v2; v3])
    = [PyLanguage L1; PyLanguage L2] /\
  PyLanguage L1 <> PyLanguage L2.
Proof.
  split; [reflexivity|].
  destruct (Parameter_languages_runs (parameter_with [v1; v2; v3]))
    as (groups & _ & _ & _ & Hadj).
  apply (Hadj 0%nat); reflexivity.
Defined.

(** C3 as stated fails: for the values [(L1,v1); (L1,v2); (L2,v3)] the
    accessor yields the two Language objects, not (language, group) pairs.
    The groups cannot be read off what it yields: the values
    [(L1,v1); (L2,v3)] yield the same sequence, so no pairing that keeps
    distinct pairs apart turns the pairs of both parameters into what the
    accessor yields. *)
Lemma Parameter_languages_not_pairs :
  Parameter_.languages (parameter_with [v1; v2; v3])
    = [PyLanguage L1; PyLanguage L2] /\
  languages_spec (parameter_with [v1; v2; v3])
    = [(PyLanguage L1, [v1; v2]); (PyLanguage L2, [v3])] /\
  ~ exists pair : pyobj * list Value.t -> pyobj,
      Inj (=) (=) pair /\
      Parameter_.languages (parameter_with [v1; v2; v3])
        = pair <$> languages_spec (parameter_with [v1; v2; v3]) /\
      Parameter_.languages (parameter_with [v1; v3])
        = pair <$> languages_spec (parameter_with [v1; v3]).
Proof.
  split; [reflexivity|]. split; [reflexivity|].
  intros (pair & Hinj & H123 & H13).
  change (languages_spec (parameter_with [v1; v2; v3]))
    with [(PyLanguage L1, [v1; v2]); (PyLanguage L2, [v3])] in H123.
  change (languages_spec (parameter_with [v1; v3]))
    with [(PyLanguage L1, [v1]); (PyLanguage L2, [v3])] in H13.
  change (Parameter_.languages (parameter_with [v1; v2; v3]))
    with [PyLanguage L1; PyLanguage L2] in H123.
  change (Parameter_.languages (parameter_with [v1; v3]))
    with [PyLanguage L1; PyLanguage L2] in H13.
  simpl in H123, H13.
  assert (Heq : pair (PyLanguage L1, [v1; v2]) = pair (PyLanguage L1, [v1]))
    by congruence.
  apply Hinj in Heq. discriminate Heq.
Qed.

(** ** Sorting *)

Section sorting_facts.
Context {A K : Type} (lt : K -> K -> bool) (key : A -> K).
Hypothesis lt_asym : forall a b, lt a b = true -> lt b a = false.
Hypothesis not_lt_trans :
  forall a b c, lt b a = false -> lt c b = false -> lt c a = false.

Lemma insort_perm (x : A) (l : list A) : insort lt key x l ≡ₚ x :: l.
Proof.
  induction l as [|y l IH]; simpl; [done|].
  destruct (lt (key y) (key x)); [|done].
  rewrite IH. apply Permutation_swap.
Qed.

Lemma sorted_perm (l : list A) : sorted lt key l ≡ₚ l.
Proof.
  induction l as [|x l IH]; simpl; [done|].
  unfold sorted in *. simpl. rewrite insort_perm. by constructor.
Qed.

Lemma insort_ascending (x : A) (l : list A) :
  ascending lt key l -> ascending lt key (insort lt key x l).
Proof.
  unfold ascending. induction 1 as [|y l Hl IH Hy]; simpl.
  - repeat constructor.
  - destruct (lt (key y) (key x)) eqn:E.
    + constructor; [done|].
      rewrite Forall_forall. intros z Hz.
      rewrite (insort_perm x l) in Hz.
      apply elem_of_cons in Hz as [->|Hz]; [by apply lt_asym|].
      rewrite Forall_forall in Hy. by apply Hy.
    + constructor; [by constructor|].
      constructor; [done|].
      rewrite Forall_forall in Hy |- *. intros z Hz.
      apply (not_lt_trans _ (key y)); [done|by apply Hy].
Qed.

Lemma sorted_ascending (l : list A) : ascending lt key (sorted lt key l).
Proof.
  induction l as [|x l IH]; [constructor|].
  apply insort_ascending, IH.
Qed.

Lemma filter_ascending (f : A -> bool) (l : list A) :
  ascending lt key l -> ascending lt key (List.filter f l).
Proof.
  unfold ascending. induction 1 as [|y l Hl IH Hy]; simpl; [constructor|].
  destruct (f y); [|done]. constructor; [done|].
  rewrite Forall_forall in Hy |- *. intros z Hz.
  apply list_elem_of_In, filter_In in Hz as [Hz _].
  by apply Hy, list_elem_of_In.
Qed.

Lemma insort_head (x : A) (l : list A) :
  Forall (fun z => lt (key z) (key x) = false) l ->
  insort lt key x l = x :: l.
Proof. destruct 1 as [|z l Hz _]; simpl; [done|]. by rewrite Hz. Qed.


End sorting_facts.

Lemma int_lt_asym (a b : option Z) : int_lt a b = true -> int_lt b a = false.
Proof.
  destruct a as [a|], b as [b|]; simpl; try done.
  intros H. apply Z.ltb_lt in H. apply Z.ltb_ge. lia.
Qed.

Lemma int_not_lt_trans (a b c : option Z) :
  int_lt b a = false -> int_lt c b = false -> int_lt c a = false.
Proof.
  destruct a as [a|], b as [b|], c as [c|]; simpl; try done.
  rewrite !Z.ltb_ge. lia.
Qed.

(** ** Contributors of a contribution *)

Lemma is_primary_true (a : ContributionContributor.t) :
  ContributionContributor.is_primary a = true
  <-> ContributionContributor.primary a = Some true.
Proof.
  unfold ContributionContributor.is_primary.
  destruct (ContributionContributor.primary a) as [[|]|]; split; congruence.
Qed.

Lemma is_primary_false (a : ContributionContributor.t) :
  ContributionContributor.is_primary a = false
  <-> ContributionContributor.primary a <> Some true.
Proof.
  unfold ContributionContributor.is_primary.
  destruct (ContributionContributor.primary a) as [[|]|]; split; congruence.
Qed.

Lemma filter_split_perm {X} (f : X -> bool) (l : list X) :
  List.filter f l ++ List.filter (fun x => negb (f x)) l ≡ₚ l.
Proof.
  induction l as [|x l IH]; simpl; [done|].
  destruct (f x); simpl.
  - by constructor.
  - rewrite <- Permutation_middle. by constructor.
Qed.

Lemma Forall_filter_true {X} (f : X -> bool) (l : list X) :
  Forall (fun x => f x = true) (List.filter f l).
Proof.
  rewrite Forall_forall. intros x Hx.
  by apply list_elem_of_In, filter_In in Hx as [_ Hx].
Qed.



(** C4, as the code has it: the two lists partition the associations of the
    contribution.  Every association adds exactly one entry, its
    contributor, to exactly one of the two lists: to [primary_contributors]
    when its primary flag is true, to [secondary_contributors] otherwise.
    The entries of each list are in ascending order of [ord], and both lists
    are determined by [contributor_assocs] alone.  (A contributor credited
    by several associations has one entry per association.) *)
Theorem Contribution_contributors_partition (c : Contribution.t) :
  exists primary secondary : list ContributionContributor.t,
    Contribution.primary_contributors c
      = ContributionContributor.contributor <$> primary /\
    Contribution.secondary_contributors c
      = ContributionContributor.contributor <$> secondary /\
    primary ++ secondary ≡ₚ Contribution.contributor_assocs c /\
    Forall (fun a => ContributionContributor.primary a = Some true) primary /\
    Forall (fun a => ContributionContributor.primary a <> Some true) secondary /\
    ascending int_lt ContributionContributor.ord primary /\
    ascending int_lt ContributionContributor.ord secondary /\
    forall c', Contribution.contributor_assocs c' = Contribution.contributor_assocs c ->
      Contribution.primary_contributors c' = Contribution.primary_contributors c /\
      Contribution.secondary_contributors c' = Contribution.secondary_contributors c.
Proof.
  set (by_ord := sorted int_lt ContributionContributor.ord
                   (Contribution.contributor_assocs c)).
  exists (List.filter ContributionContributor.is_primary by_ord),
         (List.filter (fun a => negb (ContributionContributor.is_primary a)) by_ord).
  split; [done|]. split; [done|]. split.
  { rewrite filter_split_perm. apply sorted_perm. }
  split.
  { eapply Forall_impl; [apply Forall_filter_true|].
    intros a Ha. by apply is_primary_true. }
  split.
  { eapply Forall_impl;
      [apply (Forall_filter_true
                (fun a => negb (ContributionContributor.is_primary a)))|].
    intros a Ha. apply is_primary_false. by apply negb_true_iff. }
  split.
  { apply filter_ascending,
      (sorted_ascending _ _ int_lt_asym int_not_lt_trans). }
  split.
  { apply filter_ascending,
      (sorted_ascending _ _ int_lt_asym int_not_lt_trans). }
  intros c' Hc'.
  unfold Contribution.primary_contributors, Contribution.secondary_contributors.
  by rewrite Hc'.
Qed.

Lemma Contribution_contributors_partition_witness :
  Contribution.primary_contributors
    (contribution_with [credit A 1 true; credit B 2 false; credit C 3 true])
    = [A; C] /\
  Contribution.secondary_contributors
    (contribution_with [credit A 1 true; credit B 2 false; credit C 3 true])
    = [B] /\
  Contribution.primary_contributors
    (Contribution.mk None None None None
       [credit A 1 true; credit B 2 false; credit C 3 true])
    = [A; C].
Proof.
  split; [reflexivity|]. split; [reflexivity|].
  destruct (Contribution_contributors_partition
              (contribution_with
                 [credit A 1 true; credit B 2 false; credit C 3 true]))
    as (_ & _ & _ & _ & _ & _ & _ & _ & _ & Hsame).
  destruct (Hsame (Contribution.mk None None None None
                     [credit A 1 true; credit B 2 false; credit C 3 true])
              eq_refl) as [Hprimary _].
  rewrite Hprimary. reflexivity.
Defined.

(** C4 as stated fails for a contributor that two associations credit, one
    with the primary flag and one without: the contributor is in both
    lists, so it is in [primary_contributors] although the flag of its
    second association is false. *)
Lemma Contribution_contributor_in_both_lists :
  Contribution.primary_contributors
    (contribution_with [credit A 1 true; credit A 2 false]) = [A] /\
  Contribution.secondary_contributors
    (contribution_with [credit A 1 true; credit A 2 false]) = [A] /\
  ~ (forall a,
       a ∈ Contribution.contributor_assocs
             (contribution_with [credit A 1 true; credit A 2 false]) ->
       (ContributionContributor.contributor a
          ∈ Contribution.primary_contributors
              (contribution_with [credit A 1 true; credit A 2 false])
        <-> ContributionContributor.primary a = Some true) /\
       ~ (ContributionContributor.contributor a
            ∈ Contribution.primary_contributors
                (contribution_with [credit A 1 true; credit A 2 false]) /\
          ContributionContributor.contributor a
            ∈ Contribution.secondary_contributors
                (contribution_with [credit A 1 true; credit A 2 false]))).
Proof.
  split; [reflexivity|]. split; [reflexivity|].
  intros Hall.
  destruct (Hall (credit A 2 false)) as [[Hflag _] _].
  { right. left. }
  assert (Hin : ContributionContributor.contributor (credit A 2 false)
                  ∈ Contribution.primary_contributors
                      (contribution_with [credit A 1 true; credit A 2 false])).
  { left. }
  apply Hflag in Hin. discriminate Hin.
Qed.







(** ** Annotations *)

Lemma assoc_app {X} (key : string) (l1 l2 : list (string * X)) :
  assoc key (l1 ++ l2)%list
  = match assoc key l1 with Some a => Some a | None => assoc key l2 end.
Proof.
  induction l1 as [|[k a] l1 IH]; simpl; [done|].
  by destruct (String.eqb key k).
Qed.

Lemma for_each_cons {X Y} (f : X -> outcome Y) (x : X) (l : list X) :
  for_each f (x :: l) = (y ← f x; ys ← for_each f l; Return (y :: ys)).
Proof. done. Qed.

Lemma for_each_total {X Y} (f : X -> Y) (l : list X) :
  for_each (fun x => Return (f x)) l = Return (f <$> l).
Proof. induction l as [|x l IH]; simpl; [done|]. by rewrite IH. Qed.

Lemma for_each_DataRow (ds : list DataMixin.t) :
  for_each (fun d => key ← row_key d; value ← row_value d; Return (key, value))
           (DataRow <$> ds)
  = Return (key_value <$> ds).
Proof.
  induction ds as [|d ds IH]; [done|].
  rewrite fmap_cons, for_each_cons, IH. done.
Qed.

Section base_classes.
Variables Base PolymorphicBaseMixin Versioned : class_body.
Variable name : string.
Hypothesis Base_unbound : forall cls, assoc name (Base cls) = None.
Hypothesis PolymorphicBaseMixin_unbound :
  forall cls, assoc name (PolymorphicBaseMixin cls) = None.
Hypothesis Versioned_unbound : forall cls, assoc name (Versioned cls) = None.

(** Lookup of a name that the three base classes do not bind goes on to
    the class's own body and the mixins of this module. *)
Lemma annotated_class_getattr (cls : pyclass) :
  cls ∈ annotated_classes Base PolymorphicBaseMixin Versioned ->
  class_getattr cls name
  = match assoc name (own cls) with
    | Some a => Some a
    | None =>
        assoc name
          ((if String.eqb (class_name cls) "Sentence" then []
            else IdNameDescriptionMixin (class_name cls))
           ++ HasDataMixin.body (class_name cls)
           ++ HasFilesMixin.body (class_name cls))%list
    end.
Proof.
  unfold annotated_classes. intros Hin.
  repeat (apply elem_of_cons in Hin as [->|Hin]);
    [..|by apply elem_of_nil in Hin];
    unfold class_getattr; rewrite assoc_app;
    cbv [Language_class DomainElement_class Parameter_class Source_class
         Contribution_class Value_class Contributor_class Sentence_class
         Unit_class UnitDomainElement_class UnitParameter_class
         UnitValue_class own bases class_name fmap list_fmap List.concat];
    (match goal with |- match ?x with _ => _ end = _ => destruct x end;
     [done|]);
    rewrite !assoc_app, Base_unbound, PolymorphicBaseMixin_unbound,
      Versioned_unbound; simpl;
    repeat match goal with
           | |- context [String.eqb name ?s] => destruct (String.eqb name s)
           end; done.
Qed.
End base_classes.

Lemma annotated_class_own (Base PolymorphicBaseMixin Versioned : class_body)
    (cls : pyclass) :
  cls ∈ annotated_classes Base PolymorphicBaseMixin Versioned ->
  assoc "files" (own cls) = None /\ assoc "data" (own cls) = None.
Proof.
  unfold annotated_classes. intros Hin.
  repeat (apply elem_of_cons in Hin as [->|Hin]);
    [..|by apply elem_of_nil in Hin]; by split.
Qed.

Lemma mixins_files (cls : string) (mixin : class_body) :
  mixin = IdNameDescriptionMixin \/ mixin = (fun _ => []) ->
  assoc "files"
    (mixin cls ++ HasDataMixin.body cls ++ HasFilesMixin.body cls)%list = None.
Proof. by intros [->| ->]. Qed.

Lemma mixins_data (cls : string) (mixin : class_body) :
  mixin = IdNameDescriptionMixin \/ mixin = (fun _ => []) ->
  assoc "data"
    (mixin cls ++ HasDataMixin.body cls ++ HasFilesMixin.body cls)%list
  = Some (Relationship (cls ++ "_data")).
Proof. by intros [->| ->]. Qed.

(** C5, which the code does not satisfy: [filesdict] reads [self.files],
    and no class of the module has an attribute of that name.  The
    relationship of HasFilesMixin is declared under the name [data], where
    the declaration of HasDataMixin, which comes first in the bases of every
    class, hides it; the backref that would add [files] is commented out.
    So, unless one of the base classes defined outside this module binds
    [files], calling [filesdict] on an instance of any class that mixes in
    HasFilesMixin raises AttributeError, whatever file rows are attached. *)
Theorem filesdict_raises_AttributeError
    (Base PolymorphicBaseMixin Versioned : class_body) (self : instance) :
  (forall cls, assoc "files" (Base cls) = None) ->
  (forall cls, assoc "files" (PolymorphicBaseMixin cls) = None) ->
  (forall cls, assoc "files" (Versioned cls) = None) ->
  class_of self ∈ annotated_classes Base PolymorphicBaseMixin Versioned ->
  HasFilesMixin.filesdict self = Raise (AttributeError "files").
Proof.
  intros HB HP HV Hin.
  unfold HasFilesMixin.filesdict, collection.
  rewrite (annotated_class_getattr _ _ _ "files" HB HP HV _ Hin).
  destruct (annotated_class_own _ _ _ _ Hin) as [-> _].
  destruct (String.eqb _ "Sentence").
  - by rewrite (mixins_files _ (fun _ => [])); [|right].
  - by rewrite (mixins_files _ IdNameDescriptionMixin); [|left].
Qed.

Lemma filesdict_raises_AttributeError_witness :
  annotations (example_language []) "Language_files"
    = [files_row "audio" example_file] /\
  HasFilesMixin.filesdict (example_language [])
    = Raise (AttributeError "files").
Proof.
  split; [reflexivity|].
  apply (filesdict_raises_AttributeError plain_Base plain_mixin plain_mixin);
    try reflexivity.
  left.
Defined.

(** ** The dictionary of key-value pairs *)

Section dict_facts.
Context `{Countable K} {V : Type}.

Lemma dict_snoc (pairs : list (K * V)) (k : K) (v : V) :
  dict (pairs ++ [(k, v)]) = <[k := v]> (dict pairs).
Proof. unfold dict. by rewrite foldl_snoc. Qed.

Lemma dict_list_to_map (pairs : list (K * V)) :
  dict pairs = list_to_map (reverse pairs).
Proof.
  induction pairs as [|[k v] pairs IH] using rev_ind; [done|].
  by rewrite dict_snoc, reverse_snoc, IH.
Qed.

(** A pair is found under its key unless a later pair has the same key. *)
Lemma dict_lookup_last (before after : list (K * V)) (k : K) (v : V) :
  k ∉ after.*1 -> dict (before ++ (k, v) :: after) !! k = Some v.
Proof.
  induction after as [|[k' v'] after IH] using rev_ind; intros Hk.
  - by rewrite dict_snoc, lookup_insert_eq.
  - rewrite fmap_app, not_elem_of_app in Hk. destruct Hk as [Hk Hk'].
    rewrite app_comm_cons, app_assoc, dict_snoc, lookup_insert_ne.
    + by apply IH.
    + intros ->. apply Hk'. simpl. left.
Qed.

Lemma dict_lookup_None (pairs : list (K * V)) (k : K) :
  dict pairs !! k = None <-> k ∉ pairs.*1.
Proof.
  rewrite dict_list_to_map, <- not_elem_of_list_to_map, fmap_reverse.
  by rewrite elem_of_reverse.
Qed.

(** Without repeated keys, the items of the dictionary are the pairs. *)
Lemma dict_items (pairs : list (K * V)) :
  NoDup pairs.*1 -> map_to_list (dict pairs) ≡ₚ pairs.
Proof.
  intros Hnodup. rewrite dict_list_to_map, map_to_list_to_map.
  - apply reverse_Permutation.
  - by rewrite fmap_reverse, reverse_Permutation.
Qed.
End dict_facts.

Lemma records_of_dict_key_value (d : gmap (option string) (option string)) :
  key_value <$> records_of_dict d = map_to_list d.
Proof.
  unfold records_of_dict. rewrite <- list_fmap_compose.
  rewrite <- (list_fmap_id (map_to_list d)) at 2.
  apply list_fmap_ext. by intros ? [? ?].
Qed.

Lemma key_value_keys (ds : list DataMixin.t) :
  (key_value <$> ds).*1 = DataMixin.key <$> ds.
Proof. by rewrite <- list_fmap_compose. Qed.

Lemma annotated_class_data (Base PolymorphicBaseMixin Versioned : class_body)
    (self : instance) :
  (forall cls, assoc "data" (Base cls) = None) ->
  (forall cls, assoc "data" (PolymorphicBaseMixin cls) = None) ->
  (forall cls, assoc "data" (Versioned cls) = None) ->
  class_of self ∈ annotated_classes Base PolymorphicBaseMixin Versioned ->
  collection self "data"
  = Return (annotations self (class_name (class_of self) ++ "_data")).
Proof.
  intros HB HP HV Hin. unfold collection.
  rewrite (annotated_class_getattr _ _ _ "data" HB HP HV _ Hin).
  destruct (annotated_class_own _ _ _ _ Hin) as [_ ->].
  destruct (String.eqb _ "Sentence").
  - by rewrite (mixins_data _ (fun _ => [])); [|right].
  - by rewrite (mixins_data _ IdNameDescriptionMixin); [|left].
Qed.

(** C8: for an instance of a class that mixes in HasDataMixin, with the data
    records [ds] in its data table, [datadict] returns the dictionary built
    from the (key, value) pairs of the records in their order.  When the
    keys are pairwise distinct, the records rebuilt from the entries of the
    dictionary have exactly the (key, value) pairs of [ds].  When a key is
    repeated, the dictionary holds under it the value of the last record
    with that key.  (The base classes defined outside the module are taken
    not to bind [data].) *)
Theorem datadict_round_trip
    (Base PolymorphicBaseMixin Versioned : class_body) (self : instance)
    (ds : list DataMixin.t) :
  (forall cls, assoc "data" (Base cls) = None) ->
  (forall cls, assoc "data" (PolymorphicBaseMixin cls) = None) ->
  (forall cls, assoc "data" (Versioned cls) = None) ->
  class_of self ∈ annotated_classes Base PolymorphicBaseMixin Versioned ->
  annotations self (class_name (class_of self) ++ "_data") = DataRow <$> ds ->
  HasDataMixin.datadict self = Return (dict (key_value <$> ds)) /\
  (NoDup (DataMixin.key <$> ds) ->
   key_value <$> records_of_dict (dict (key_value <$> ds)) ≡ₚ key_value <$> ds) /\
  (forall (before : list DataMixin.t) (d : DataMixin.t)
          (after : list DataMixin.t),
     ds = (before ++ d :: after)%list ->
     DataMixin.key d ∉ DataMixin.key <$> after ->
     dict (key_value <$> ds) !! DataMixin.key d = Some (DataMixin.value d)).
Proof.
  intros HB HP HV Hin Hrows. split; [|split].
  - unfold HasDataMixin.datadict.
    rewrite (annotated_class_data _ _ _ _ HB HP HV Hin), Hrows.
    change (Return (DataRow <$> ds) ≫= ?k) with (k (DataRow <$> ds)).
    cbv beta. by rewrite for_each_DataRow.
  - intros Hnodup. rewrite records_of_dict_key_value.
    apply dict_items. by rewrite key_value_keys.
  - intros before d after -> Hlast.
    rewrite fmap_app, fmap_cons.
    apply (dict_lookup_last _ _ (DataMixin.key d) (DataMixin.value d)).
    by rewrite key_value_keys.
Qed.

Lemma datadict_round_trip_witness :
  HasDataMixin.datadict
    (example_language
       [data_record "a" "1"; data_record "b" "2"; data_record "a" "3"])
  = Return (dict [(Some "a", Some "1"); (Some "b", Some "2");
                  (Some "a", Some "3")]) /\
  dict [(Some "a", Some "1"); (Some "b", Some "2"); (Some "a", Some "3")]
    !! Some "a" = Some (Some "3") /\
  key_value
    <$> records_of_dict (dict (key_value
                                 <$> [data_record "a" "1"; data_record "b" "2"]))
  ≡ₚ [(Some "a", Some "1"); (Some "b", Some "2")].
Proof.
  destruct (datadict_round_trip plain_Base plain_mixin plain_mixin
              (example_language
                 [data_record "a" "1"; data_record "b" "2"; data_record "a" "3"])
              [data_record "a" "1"; data_record "b" "2"; data_record "a" "3"])
    as (Hdict & _ & Hlast); try reflexivity; [left|].
  destruct (datadict_round_trip plain_Base plain_mixin plain_mixin
              (example_language [data_record "a" "1"; data_record "b" "2"])
              [data_record "a" "1"; data_record "b" "2"])
    as (_ & Hround & _); try reflexivity; [left|].
  split; [exact Hdict|]. split.
  - apply (Hlast [data_record "a" "1"; data_record "b" "2"]
                 (data_record "a" "3") []); [reflexivity|].
    apply not_elem_of_nil.
  - apply Hround. compute_done.
Defined.

(** ** References *)

Lemma str_lt_asym (a b : option string) :
  str_lt a b = true -> str_lt b a = false.
Proof.
  destruct a as [a|], b as [b|]; simpl; try done.
  unfold String.ltb. rewrite (String.compare_antisym a b).
  by destruct (String.compare b a).
Qed.

Lemma String_ltb_trans (a b c : string) :
  String.ltb a b = true -> String.ltb b c = true -> String.ltb a c = true.
Proof.
  unfold String.ltb. intros Hab Hbc.
  destruct (String.compare a b) eqn:Eab; try discriminate.
  destruct (String.compare b c) eqn:Ebc; try discriminate.
  apply OrderedTypeEx.String_as_OT.cmp_lt in Eab, Ebc.
  pose proof (OrderedTypeEx.String_as_OT.lt_trans _ _ _ Eab Ebc) as Hac.
  apply OrderedTypeEx.String_as_OT.cmp_lt in Hac.
  unfold OrderedTypeEx.String_as_OT.cmp in Hac. by rewrite Hac.
Qed.

Lemma String_ltb_total (a b : string) :
  String.ltb a b = false -> String.ltb b a = false -> a = b.
Proof.
  unfold String.ltb. rewrite (String.compare_antisym a b).
  destruct (String.compare b a) eqn:E; simpl; try done.
  intros _ _. symmetry. by apply String.compare_eq_iff.
Qed.

Lemma str_not_lt_trans (a b c : option string) :
  str_lt b a = false -> str_lt c b = false -> str_lt c a = false.
Proof.
  destruct a as [a|], b as [b|], c as [c|]; simpl; try done.
  intros Hba Hcb.
  destruct (String.ltb c a) eqn:Hca; [|done].
  destruct (String.ltb a b) eqn:Hab.
  - by rewrite (String_ltb_trans c a b Hca Hab) in Hcb.
  - rewrite (String_ltb_total a b Hab Hba) in Hca. by rewrite Hca in Hcb.
Qed.

(** C9: the references of a Value, and of a Sentence, are the reference
    rows that point to it, in ascending order of their [key] as the database
    orders that column; this holds for any number of rows.  The order is
    required to be a strict weak order, as the order of strings character by
    character is. *)
Theorem references_ordered_by_key
    (collation : option string -> option string -> bool)
    (valuereference : list ValueReference.t)
    (sentencereference : list SentenceReference.t) (pk : Z) :
  (forall a b, collation a b = true -> collation b a = false) ->
  (forall a b c, collation b a = false -> collation c b = false ->
                 collation c a = false) ->
  ascending collation ValueReference.key
    (Value_references collation valuereference pk) /\
  Value_references collation valuereference pk
    ≡ₚ List.filter (fun r => bool_decide (ValueReference.value_pk r = Some pk))
         valuereference /\
  ascending collation SentenceReference.key
    (Sentence_references collation sentencereference pk) /\
  Sentence_references collation sentencereference pk
    ≡ₚ List.filter
         (fun r => bool_decide (SentenceReference.sentence_pk r = Some pk))
         sentencereference.
Proof.
  intros Hasym Htrans.
  unfold Value_references, Sentence_references, load_ordered.
  repeat split;
    first [by apply sorted_ascending | apply sorted_perm].
Qed.

Lemma references_ordered_by_key_witness :
  Value_references str_lt
    [reference 1 "smith2001" 7; reference 2 "jones1999" 7;
     reference 3 "adams1980" 8; reference 4 "Brown1975" 7] 7
  = [reference 4 "Brown1975" 7; reference 2 "jones1999" 7;
     reference 1 "smith2001" 7] /\
  ascending str_lt SentenceReference.key
    (Sentence_references str_lt
       [sentence_reference 1 "b" 3; sentence_reference 2 "a" 3] 3).
Proof.
  split; [reflexivity|].
  apply (references_ordered_by_key str_lt [] _ 3 str_lt_asym str_not_lt_trans).
Defined.

(** ** Owner classes of the annotation tables *)






(** ** The URL of an identifier *)

(** X2: An identifier whose type was stored by an assignment has a URL only
    when the type is 'wals': for the two other types that the assignment
    admits, 'iso639-3' and 'glottolog', [url] returns [None]. *)
Theorem Identifier_url_after_assignment (i i' : Identifier.t) (type : pyobj) :
  Identifier.setattr i "type" type = Return i' ->
  (type = PyStr "wals" -> Identifier_url i' = PyStr "http://wals.info/...") /\
  (Identifier_url i' = PyNone
   <-> type = PyStr "iso639-3" \/ type = PyStr "glottolog").
Proof.
  intros Hset.
  assert (Hin : Identifier.type i' = type /\ py_in type identifier_types = true).
  { change (Identifier.setattr i "type" type) with
      (Identifier.validate_type i "type" type ≫= fun stored =>
       Return (Identifier.store i "type" stored)) in Hset.
    rewrite Identifier_validate_type_member in Hset.
    destruct (py_in type identifier_types); [|discriminate].
    by inversion Hset. }
  destruct Hin as [Htype Hin]. unfold Identifier_url. rewrite Htype.
  apply py_in_elem_of in Hin. unfold identifier_types in Hin.
  rewrite !elem_of_cons in Hin.
  destruct Hin as [->|[->|[->|Hin]]]; [..|by apply elem_of_nil in Hin];
    (split; [done|]); split; try done; try (by intros [|]); eauto.
Qed.

Lemma Identifier_url_after_assignment_witness :
  Identifier_url (Identifier.mk PyNone PyNone PyNone PyNone (PyStr "glottolog"))
  = PyNone.
Proof.
  apply (Identifier_url_after_assignment Identifier.new _ (PyStr "glottolog"));
    [reflexivity|by right].
Defined.

(** ** The order of assignments to a Value *)

(** X3: The check runs only when [parameter_pk] is assigned, so whether a
    domain element of another parameter is accepted depends on the order of
    the assignments.  For a Value without a domain element, assigning the
    parameter first and the domain element second is accepted; assigning
    the domain element first and the parameter second raises
    AssertionError.  In the state that the accepted order leaves,
    assigning the Value its own [parameter_pk] again is rejected. *)
Theorem Value_assignment_order (v : Value.t) (d : DomainElement.t)
    (parameter_pk : pyobj) :
  truthy (Value.domainelement v) = false ->
  of_int (DomainElement.parameter_pk d) <> parameter_pk ->
  (v' ← Value.setattr v "parameter_pk" parameter_pk;
   Value.setattr v' "domainelement" (PyDomainElement d))
  = Return (Value.store (Value.store v "parameter_pk" parameter_pk)
              "domainelement" (PyDomainElement d)) /\
  (v' ← Value.setattr v "domainelement" (PyDomainElement d);
   Value.setattr v' "parameter_pk" parameter_pk)
  = Raise AssertionError /\
  (forall v'' : Value.t,
     (v' ← Value.setattr v "parameter_pk" parameter_pk;
      Value.setattr v' "domainelement" (PyDomainElement d)) = Return v'' ->
     Value.setattr v'' "parameter_pk" (Value.parameter_pk v'')
     = Raise AssertionError).
Proof.
  intros Hnone Hne.
  assert (Hfirst : Value.setattr v "parameter_pk" parameter_pk
                   = Return (Value.store v "parameter_pk" parameter_pk)).
  { rewrite Value_setattr_parameter_pk. unfold Value.validate_parameter_pk.
    by rewrite Hnone. }
  rewrite Hfirst. apply py_eq_false in Hne.
  split; [done|]. split.
  - change (Value.setattr v "domainelement" (PyDomainElement d) ≫= ?k)
      with (k (Value.store v "domainelement" (PyDomainElement d))).
    cbv beta. rewrite Value_setattr_parameter_pk.
    rewrite (Value_validate_with_domainelement _ d) by done.
    by rewrite Hne.
  - intros v'' [= <-]. rewrite Value_setattr_parameter_pk.
    rewrite (Value_validate_with_domainelement _ d) by done.
    change (Value.parameter_pk _) with parameter_pk. by rewrite Hne.
Qed.

Lemma Value_assignment_order_witness :
  (v' ← Value.setattr (Value.mk (PyInt 7) (PyInt 3) PyNone PyNone PyNone
                         PyNone PyNone) "domainelement"
          (PyDomainElement example_domainelement);
   Value.setattr v' "parameter_pk" (PyInt 2))
  = Raise AssertionError.
Proof.
  destruct (Value_assignment_order
              (Value.mk (PyInt 7) (PyInt 3) PyNone PyNone PyNone PyNone PyNone)
              example_domainelement (PyInt 2) eq_refl) as (_ & Hraise & _);
    [discriminate|exact Hraise].
Defined.

(** ** The languages of a parameter *)

Section groupby_keys.
Context {X K : Type} `{EqDecision K} (key : X -> K).

Lemma groupby_nil (l : list X) : groupby key l = [] -> l = [].
Proof.
  destruct l as [|x l]; [done|].
  destruct (groupby_cons key x l) as (g & groups & ->). done.
Qed.

Lemma groupby_keys_cons (x : X) (l : list X) :
  (groupby key (x :: l)).*1
  = match l with
    | [] => [key x]
    | y :: _ => if decide (key x = key y) then (groupby key l).*1
                else key x :: (groupby key l).*1
    end.
Proof.
  destruct l as [|y l]; [done|].
  destruct (groupby_cons key y l) as (g & groups & Hy).
  change (groupby key (x :: y :: l)) with
    (match groupby key (y :: l) with
     | (k, g) :: groups =>
         if decide (key x = k) then (k, x :: g) :: groups
         else (key x, [x]) :: (k, g) :: groups
     | [] => [(key x, [x])]
     end).
  rewrite Hy. by destruct (decide (key x = key y)).
Qed.

Lemma groupby_keys_elem_of (l : list X) (k : K) :
  k ∈ (groupby key l).*1 <-> exists x, x ∈ l /\ key x = k.
Proof.
  induction l as [|x l IH].
  - simpl. split; [by intros ?%elem_of_nil|by intros (? & ?%elem_of_nil & _)].
  - rewrite groupby_keys_cons. destruct l as [|y l].
    + rewrite list_elem_of_singleton. split.
      * intros ->. exists x. split; [left|done].
      * by intros (x' & ->%list_elem_of_singleton & <-).
    + destruct (decide (key x = key y)) as [Hxy|Hxy].
      * rewrite IH. split.
        -- intros (z & Hz & <-). exists z. split; [by right|done].
        -- intros (z & Hz & <-). apply elem_of_cons in Hz as [->|Hz].
           ++ exists y. split; [left|done].
           ++ by exists z.
      * rewrite elem_of_cons, IH. split.
        -- intros [->|(z & Hz & <-)].
           ++ exists x. split; [left|done].
           ++ exists z. split; [by right|done].
        -- intros (z & Hz & <-). apply elem_of_cons in Hz as [->|Hz].
           ++ by left.
           ++ right. by exists z.
Qed.

Lemma grouped_tail (x : X) (l : list X) : grouped key (x :: l) -> grouped key l.
Proof.
  intros Hg i j k a b c Hlt Hi Hj Hk. apply (Hg (S i) (S j) (S k)); [lia|done..].
Qed.

Lemma groupby_keys_NoDup (l : list X) :
  NoDup (groupby key l).*1 <-> grouped key l.
Proof.
  induction l as [|x l IH].
  - split; [|constructor]. intros _ i j k a b c _ Hi. done.
  - rewrite groupby_keys_cons. destruct l as [|y l].
    + split.
      * intros _ i j k a b c Hlt Hi Hj Hk.
        destruct k as [|[|k]]; [lia| lia |done].
      * intros _. apply NoDup_singleton.
    + destruct (decide (key x = key y)) as [Hxy|Hxy].
      * rewrite IH. split; [|apply grouped_tail].
        intros Hg i j k a b c Hlt Hi Hj Hk Hac.
        destruct i as [|i].
        -- injection Hi as <-.
           destruct j as [|[|j]]; [lia|..].
           ++ injection Hj as <-. done.
           ++ destruct k as [|k]; [lia|].
              rewrite Hxy.
              apply (Hg 0%nat (S j) k y b c); [lia|done..|congruence].
        -- destruct j as [|j]; [lia|]. destruct k as [|k]; [lia|].
           apply (Hg i j k a b c); [lia|done..].
      * rewrite NoDup_cons, IH, groupby_keys_elem_of. split.
        -- intros [Hnot Hg] i j k a b c Hlt Hi Hj Hk Hac.
           destruct i as [|i].
           ++ injection Hi as <-. destruct k as [|k]; [lia|].
              exfalso. apply Hnot. exists c. split; [|done].
              simpl in Hk. by apply list_elem_of_lookup_2 in Hk.
           ++ destruct j as [|j]; [lia|]. destruct k as [|k]; [lia|].
              apply (Hg i j k a b c); [lia|done..].
        -- intros Hg. split; [|by apply grouped_tail in Hg].
           intros (z & Hz & Hkey).
           apply elem_of_cons in Hz as [->|Hz]; [done|].
           apply list_elem_of_lookup_1 in Hz as [k Hk].
           apply Hxy. symmetry.
           apply (Hg 0%nat 1%nat (S (S k)) x y z); [lia|done..].
Qed.
End groupby_keys.

Lemma Parameter_languages_keys (p : Parameter_.t) :
  Parameter_.languages p = (groupby Value.language (Parameter_.values p)).*1.
Proof. unfold Parameter_.languages. apply list_fmap_ext. by intros ? [? ?]. Qed.

(** X4: The accessor yields exactly the languages that the values of the
    parameter have: a language is yielded if and only if it is the language
    of one of the values, so a parameter without values yields nothing. *)
Theorem Parameter_languages_of_values (p : Parameter_.t) (language : pyobj) :
  language ∈ Parameter_.languages p
  <-> exists v, v ∈ Parameter_.values p /\ Value.language v = language.
Proof. rewrite Parameter_languages_keys. apply groupby_keys_elem_of. Qed.

(** X5: The accessor yields every language once if and only if the values of
    each language stand next to each other in [values]; otherwise a
    language is yielded once for each of its runs. *)
Theorem Parameter_languages_NoDup (p : Parameter_.t) :
  NoDup (Parameter_.languages p) <-> grouped Value.language (Parameter_.values p).
Proof. rewrite Parameter_languages_keys. apply groupby_keys_NoDup. Qed.

(** ** Contributors in the order of their associations *)

Lemma sorted_of_ascending {X K} (lt : K -> K -> bool) (key : X -> K)
    (l : list X) :
  ascending lt key l -> sorted lt key l = l.
Proof.
  unfold ascending. induction 1 as [|x l Hl IH Hx]; [done|].
  change (sorted lt key (x :: l)) with (insort lt key x (sorted lt key l)).
  rewrite IH. by apply insort_head.
Qed.

(** X6: When the associations of a contribution are already in ascending
    order of [ord], as they are when all of them have the same [ord], the
    two lists keep the order of [contributor_assocs]: sorting moves
    nothing, so each list is [contributor_assocs] without the associations
    of the other kind. *)
Theorem Contribution_contributors_keep_order (c : Contribution.t) :
  ascending int_lt ContributionContributor.ord (Contribution.contributor_assocs c) ->
  Contribution.primary_contributors c
  = ContributionContributor.contributor
      <$> List.filter ContributionContributor.is_primary
            (Contribution.contributor_assocs c) /\
  Contribution.secondary_contributors c
  = ContributionContributor.contributor
      <$> List.filter (fun assoc => negb (ContributionContributor.is_primary assoc))
            (Contribution.contributor_assocs c).
Proof.
  intros Hasc.
  unfold Contribution.primary_contributors, Contribution.secondary_contributors.
  by rewrite (sorted_of_ascending _ _ _ Hasc).
Qed.

Lemma Contribution_contributors_keep_order_witness :
  Contribution.primary_contributors
    (contribution_with [default_credit C; default_credit A; credit B 1 false])
  = [C; A].
Proof.
  apply (Contribution_contributors_keep_order
           (contribution_with
              [default_credit C; default_credit A; credit B 1 false])).
  repeat constructor.
Defined.

(** ** The keys of the dictionary of key-value pairs *)

Lemma dict_size `{Countable K} {V} (pairs : list (K * V)) :
  (size (dict pairs) <= List.length pairs)%nat.
Proof.
  induction pairs as [|[k v] pairs IH] using rev_ind; [done|].
  rewrite dict_snoc, length_app. simpl.
  destruct (dict pairs !! k) as [v'|] eqn:E.
  - rewrite map_size_insert_Some by eauto. lia.
  - rewrite map_size_insert_None by done. lia.
Qed.

(** X7: For an instance of a class that mixes in HasDataMixin, with the data
    records [ds] in its data table, the dictionary that [datadict] returns
    has a key exactly for the keys of the records, and no more entries than
    there are records; without records it is empty.  (The base classes
    defined outside the module are taken not to bind [data].) *)
Theorem datadict_keys
    (Base PolymorphicBaseMixin Versioned : class_body) (self : instance)
    (ds : list DataMixin.t) :
  (forall cls, assoc "data" (Base cls) = None) ->
  (forall cls, assoc "data" (PolymorphicBaseMixin cls) = None) ->
  (forall cls, assoc "data" (Versioned cls) = None) ->
  class_of self ∈ annotated_classes Base PolymorphicBaseMixin Versioned ->
  annotations self (class_name (class_of self) ++ "_data") = DataRow <$> ds ->
  exists d : gmap (option string) (option string),
    HasDataMixin.datadict self = Return d /\
    (forall key, is_Some (d !! key) <-> key ∈ DataMixin.key <$> ds) /\
    (size d <= List.length ds)%nat /\
    (ds = [] -> d = ∅).
Proof.
  intros HB HP HV Hin Hrows. exists (dict (key_value <$> ds)). split; [|split; [|split]].
  - unfold HasDataMixin.datadict.
    rewrite (annotated_class_data _ _ _ _ HB HP HV Hin), Hrows.
    change (Return (DataRow <$> ds) ≫= ?k) with (k (DataRow <$> ds)).
    cbv beta. by rewrite for_each_DataRow.
  - intros key. rewrite <- key_value_keys, <- not_eq_None_Some.
    rewrite dict_lookup_None. split; [apply dec_stable|tauto].
  - rewrite <- (length_fmap key_value ds). apply dict_size.
  - by intros ->.
Qed.

Lemma datadict_keys_witness :
  exists d : gmap (option string) (option string),
    HasDataMixin.datadict
      (example_language [data_record "a" "1"; data_record "a" "3"]) = Return d /\
    is_Some (d !! Some "a") /\ ~ is_Some (d !! Some "b").
Proof.
  destruct (datadict_keys plain_Base plain_mixin plain_mixin
              (example_language [data_record "a" "1"; data_record "a" "3"])
              [data_record "a" "1"; data_record "a" "3"])
    as (d & Hd & Hkeys & _); try reflexivity; [left|].
  exists d. split; [exact Hd|]. split.
  - apply Hkeys. left.
  - intros Hb. apply Hkeys in Hb. revert Hb. compute_done.
Defined.

(** ** The domain of a parameter *)

Section ordered_uniquely.
Context {X K : Type} (lt : K -> K -> bool) (key : X -> K).
Hypothesis lt_asym : forall a b, lt a b = true -> lt b a = false.
Hypothesis not_lt_trans :
  forall a b c, lt b a = false -> lt c b = false -> lt c a = false.
Hypothesis lt_total : forall a b, lt a b = false -> lt b a = false -> a = b.

Lemma NoDup_key_inj (l : list X) (x y : X) :
  NoDup (key <$> l) -> x ∈ l -> y ∈ l -> key x = key y -> x = y.
Proof.
  induction l as [|z l IH]; [by intros _ ?%elem_of_nil|].
  rewrite fmap_cons, NoDup_cons, !elem_of_cons.
  intros [Hz Hl] [->|Hx] [->|Hy] Hkey; [done|..|by apply IH].
  - exfalso. apply Hz. rewrite Hkey. by apply list_elem_of_fmap_2.
  - exfalso. apply Hz. rewrite <- Hkey. by apply list_elem_of_fmap_2.
Qed.

Lemma ascending_unique (l1 l2 : list X) :
  ascending lt key l1 -> ascending lt key l2 -> l1 ≡ₚ l2 ->
  NoDup (key <$> l1) -> l1 = l2.
Proof.
  unfold ascending. intros H1. revert l2.
  induction H1 as [|x l1 Hl1 IH Hx]; intros l2 H2 Hperm Hnodup.
  - by apply Permutation_nil_l in Hperm.
  - destruct H2 as [|y l2 Hl2 Hy].
    + by apply Permutation_nil_r in Hperm.
    + assert (Hxin : x ∈ y :: l2) by (rewrite <- Hperm; left).
      assert (Hyin : y ∈ x :: l1) by (rewrite Hperm; left).
      assert (Hxy : x = y).
      { apply (NoDup_key_inj (x :: l1)); [done|left|done|].
        apply elem_of_cons in Hxin as [->|Hxin]; [done|].
        apply elem_of_cons in Hyin as [->|Hyin]; [done|].
        rewrite Forall_forall in Hx, Hy.
        apply lt_total; [by apply Hy|by apply Hx]. }
      subst y. f_equal. apply IH; [done| |].
      * by apply Permutation_cons_inv in Hperm.
      * rewrite fmap_cons in Hnodup. by apply NoDup_cons in Hnodup as [_ ?].
Qed.

Lemma sorted_unique (l1 l2 : list X) :
  l1 ≡ₚ l2 -> NoDup (key <$> l1) -> sorted lt key l1 = sorted lt key l2.
Proof.
  intros Hperm Hnodup. apply ascending_unique.
  - by apply sorted_ascending.
  - by apply sorted_ascending.
  - by rewrite !sorted_perm.
  - by rewrite (sorted_perm lt key l1).
Qed.
End ordered_uniquely.

Lemma filter_Permutation {X} (f : X -> bool) (l1 l2 : list X) :
  l1 ≡ₚ l2 -> List.filter f l1 ≡ₚ List.filter f l2.
Proof.
  induction 1 as [|x l1 l2 _ IH|x y l|l1 l2 l3 _ IH1 _ IH2]; simpl.
  - done.
  - destruct (f x); [by constructor|done].
  - destruct (f x), (f y); try done. apply Permutation_swap.
  - by rewrite IH1.
Qed.

Lemma filter_NoDup_key {X K} (key : X -> K) (f : X -> bool) (l : list X) :
  NoDup (key <$> l) -> NoDup (key <$> List.filter f l).
Proof.
  induction l as [|x l IH]; [done|]. rewrite fmap_cons, NoDup_cons.
  intros [Hx Hl]. simpl. destruct (f x); [|by apply IH].
  rewrite fmap_cons, NoDup_cons. split; [|by apply IH].
  intros Hin. apply Hx. apply list_elem_of_fmap in Hin as (y & -> & Hy).
  apply list_elem_of_fmap_2.
  by apply list_elem_of_In, filter_In in Hy as [?%list_elem_of_In _].
Qed.

Lemma load_ordered_unique {R} (collation : option string -> option string -> bool)
    (fk : R -> option Z) (key : R -> option string)
    (table table' : list R) (owner_pk : Z) :
  (forall a b, collation a b = true -> collation b a = false) ->
  (forall a b c, collation b a = false -> collation c b = false ->
                 collation c a = false) ->
  (forall a b, collation a b = false -> collation b a = false -> a = b) ->
  NoDup (key <$> table) -> table' ≡ₚ table ->
  load_ordered collation fk key table' owner_pk
  = load_ordered collation fk key table owner_pk.
Proof.
  intros Hasym Htrans Htotal Hnodup Hperm. unfold load_ordered.
  symmetry. apply sorted_unique; try done.
  - by apply filter_Permutation.
  - by apply filter_NoDup_key.
Qed.

(** X8: The domain of a Parameter, and of a UnitParameter, consists of the
    domain elements that point to it, in ascending order of their [id] as
    the database orders that column (a strict weak order). *)
Theorem domain_ordered_by_id
    (collation : option string -> option string -> bool)
    (domainelement : list DomainElement.t)
    (unitdomainelement : list UnitDomainElement.t) (pk : Z) :
  (forall a b, collation a b = true -> collation b a = false) ->
  (forall a b c, collation b a = false -> collation c b = false ->
                 collation c a = false) ->
  ascending collation DomainElement.id
    (Parameter_domain collation domainelement pk) /\
  Parameter_domain collation domainelement pk
    ≡ₚ List.filter (fun d => bool_decide (DomainElement.parameter_pk d = Some pk))
         domainelement /\
  ascending collation UnitDomainElement.id
    (UnitParameter_domain collation unitdomainelement pk) /\
  UnitParameter_domain collation unitdomainelement pk
    ≡ₚ List.filter
         (fun d => bool_decide (UnitDomainElement.unitparameter_pk d = Some pk))
         unitdomainelement.
Proof.
  intros Hasym Htrans.
  unfold Parameter_domain, UnitParameter_domain, load_ordered.
  repeat split;
    first [by apply sorted_ascending | apply sorted_perm].
Qed.

Lemma domain_ordered_by_id_witness :
  Parameter_domain str_lt
    [domainelement_of 1 "p1-yes" 1; domainelement_of 2 "p2-red" 2;
     domainelement_of 3 "p1-no" 1] 1
  = [domainelement_of 3 "p1-no" 1; domainelement_of 1 "p1-yes" 1] /\
  ascending str_lt UnitDomainElement.id
    (UnitParameter_domain str_lt [example_unitdomainelement] 1).
Proof.
  split; [reflexivity|].
  apply (domain_ordered_by_id str_lt [] _ 1 str_lt_asym str_not_lt_trans).
Defined.

Lemma str_lt_total (a b : option string) :
  str_lt a b = false -> str_lt b a = false -> a = b.
Proof.
  destruct a as [a|], b as [b|]; simpl; try done.
  intros Hab Hba. f_equal. by apply String_ltb_total.
Qed.

(** X9: The [id] column is unique.  When no two domain elements have the same
    [id] and the database orders ids totally, the domain of a parameter is
    one fixed list: it does not depend on the order in which the table
    holds its rows.  The same holds for the domain of a unit parameter. *)
Theorem domain_order_determined
    (collation : option string -> option string -> bool)
    (domainelement domainelement' : list DomainElement.t)
    (unitdomainelement unitdomainelement' : list UnitDomainElement.t)
    (pk : Z) :
  (forall a b, collation a b = true -> collation b a = false) ->
  (forall a b c, collation b a = false -> collation c b = false ->
                 collation c a = false) ->
  (forall a b, collation a b = false -> collation b a = false -> a = b) ->
  (NoDup (DomainElement.id <$> domainelement) ->
   domainelement' ≡ₚ domainelement ->
   Parameter_domain collation domainelement' pk
   = Parameter_domain collation domainelement pk) /\
  (NoDup (UnitDomainElement.id <$> unitdomainelement) ->
   unitdomainelement' ≡ₚ unitdomainelement ->
   UnitParameter_domain collation unitdomainelement' pk
   = UnitParameter_domain collation unitdomainelement pk).
Proof.
  intros Hasym Htrans Htotal. split; intros Hnodup Hperm.
  - by apply load_ordered_unique.
  - by apply load_ordered_unique.
Qed.

Lemma domain_order_determined_witness :
  Parameter_domain str_lt
    [domainelement_of 3 "p1-no" 1; domainelement_of 1 "p1-yes" 1;
     domainelement_of 2 "p2-red" 2] 1
  = Parameter_domain str_lt
      [domainelement_of 1 "p1-yes" 1; domainelement_of 2 "p2-red" 2;
       domainelement_of 3 "p1-no" 1] 1.
Proof.
  apply (domain_order_determined str_lt _ _ [] [] 1
           str_lt_asym str_not_lt_trans str_lt_total).
  - compute_done.
  - apply Permutation_cons_append.
Defined.

(** ** The tables of attached files *)

Lemma assoc_elem_of {X} (name : string) (l : list (string * X)) (a : X) :
  assoc name l = Some a -> a ∈ l.*2.
Proof.
  induction l as [|[k b] l IH]; simpl; [done|].
  destruct (String.eqb name k).
  - intros [= ->]. left.
  - intros Ha. right. by apply IH.
Qed.

(** X10: No attribute of a class that mixes in HasFilesMixin loads from the
    files table of the class: the only relationship to [<cls>_files] is the
    one that HasFilesMixin declares under the name [data], and for that
    name the lookup finds the declaration of HasDataMixin first.  (The base
    classes defined outside the module are taken not to declare a
    relationship to that table.) *)
Theorem files_table_unreachable
    (Base PolymorphicBaseMixin Versioned : class_body) (cls : pyclass)
    (name : string) :
  (forall c n, assoc n (Base c) <> Some (Relationship (c ++ "_files"))) ->
  (forall c n,
     assoc n (PolymorphicBaseMixin c) <> Some (Relationship (c ++ "_files"))) ->
  (forall c n, assoc n (Versioned c) <> Some (Relationship (c ++ "_files"))) ->
  cls ∈ annotated_classes Base PolymorphicBaseMixin Versioned ->
  class_getattr cls name <> Some (Relationship (class_name cls ++ "_files")).
Proof.
  intros HB HP HV Hin Hget. unfold annotated_classes in Hin.
  repeat (apply elem_of_cons in Hin as [->|Hin]);
    [..|by apply elem_of_nil in Hin];
    unfold class_getattr in Hget; rewrite assoc_app in Hget;
    cbv [Language_class DomainElement_class Parameter_class Source_class
         Contribution_class Value_class Contributor_class Sentence_class
         Unit_class UnitDomainElement_class UnitParameter_class
         UnitValue_class own bases class_name fmap list_fmap List.concat]
      in Hget;
    (match type of Hget with
     | match ?x with _ => _ end = _ => destruct x as [a|] eqn:Eown
     end;
     [injection Hget as ->; apply assoc_elem_of in Eown; revert Eown;
      compute_done|]);
    rewrite !assoc_app in Hget;
    (destruct (assoc name (Base _)) as [a|] eqn:EB;
     [injection Hget as ->; by apply HB in EB|]);
    (destruct (assoc name (PolymorphicBaseMixin _)) as [a|] eqn:EP;
     [injection Hget as ->; by apply HP in EP|]);
    (destruct (assoc name (Versioned _)) as [a|] eqn:EV;
     [injection Hget as ->; by apply HV in EV|]);
    simpl in Hget;
    repeat match type of Hget with
           | context [String.eqb name ?s] => destruct (String.eqb name s)
           end;
    vm_compute in Hget; discriminate Hget.
Qed.

Lemma files_table_unreachable_witness :
  class_getattr (Language_class plain_Base plain_mixin plain_mixin) "data"
  <> Some (Relationship "Language_files").
Proof.
  apply (files_table_unreachable plain_Base plain_mixin plain_mixin
           (Language_class plain_Base plain_mixin plain_mixin) "data");
    [intros c n; unfold plain_Base; simpl; by destruct (String.eqb n "pk")
    |done|done|left].
Defined.

(** * clld.scripts.util: the objects of an import *)

Section Data_facts.
Context {object : Type}.
Implicit Types (self : Data.t (object := object)) (kw : gmap string object).

Lemma setdefault_lookup kw (k : string) (v : object) (k' : string) :
  Data.setdefault kw k v !! k'
  = match kw !! k' with
    | Some v' => Some v'
    | None => if decide (k = k') then Some v else None
    end.
Proof.
  unfold Data.setdefault. destruct (kw !! k) as [w|] eqn:Ek.
  - destruct (kw !! k') eqn:Ek'; [done|].
    destruct (decide (k = k')) as [->|]; [congruence|done].
  - destruct (decide (k = k')) as [->|Hne].
    + by rewrite lookup_insert_eq, Ek.
    + rewrite lookup_insert_ne by done. by destruct (kw !! k').
Qed.

Lemma foldl_setdefault_lookup (l : list (string * object)) kw (k : string) :
  foldl (fun kw '(k, v) => Data.setdefault kw k v) kw l !! k
  = match kw !! k with
    | Some v => Some v
    | None => (list_to_map l : gmap string object) !! k
    end.
Proof.
  revert kw. induction l as [|[k' v'] l IH]; intros kw; simpl.
  - rewrite lookup_empty. by destruct (kw !! k).
  - rewrite IH, setdefault_lookup. destruct (kw !! k) as [v|]; [done|].
    destruct (decide (k' = k)) as [->|Hne].
    + by rewrite lookup_insert_eq.
    + by rewrite lookup_insert_ne.
Qed.

Lemma foldl_setdefault_union kw (defaults : gmap string object) :
  foldl (fun kw '(k, v) => Data.setdefault kw k v) kw (map_to_list defaults)
  = kw ∪ defaults.
Proof.
  apply map_eq. intros k.
  rewrite foldl_setdefault_lookup, list_to_map_to_list, lookup_union.
  by destruct (kw !! k), (defaults !! k).
Qed.

Lemma Data_add_unfold self (DBSession : list object) (model : Data.model)
    (key : string) kw :
  exists new : object,
    Data.add self DBSession model key kw
    = (new,
       Data.mk (<[Data.mapper_name model :=
                    <[key := new]> (default ∅ (Data.items self
                                                !! Data.mapper_name model))]>
                  (Data.items self))
               (Data.defaults self),
       (DBSession ++ [new])%list) /\
    new = match map_to_list kw with
          | [(k, obj)] =>
              if String.eqb k "_obj" then obj
              else Data.call model (kw ∪ Data.defaults self)
          | _ => Data.call model (kw ∪ Data.defaults self)
          end.
Proof.
  eexists. split; [|rewrite <- foldl_setdefault_union; reflexivity].
  unfold Data.add, Data.getitem.
  destruct (Data.items self !! Data.mapper_name model) as [inner|] eqn:E;
    simpl; [done|].
  by rewrite insert_insert_eq.
Qed.
End Data_facts.

(** X11: [add] stores the object it returns under the mapper name of the model
    and the key, so that [self[name][key]] finds it, hands the same object
    to the session, behind the objects added before, and leaves every other
    entry of the dictionary and the defaults as they were. *)
Theorem Data_add_stores {object : Type} (self : Data.t (object := object))
    (DBSession : list object) (model : Data.model) (key : string)
    (kw : gmap string object) :
  Data.lookup (Data.add self DBSession model key kw).1.2
    (Data.mapper_name model) key
  = Some (Data.add self DBSession model key kw).1.1 /\
  (Data.add self DBSession model key kw).2
  = (DBSession ++ [(Data.add self DBSession model key kw).1.1])%list /\
  Data.defaults (Data.add self DBSession model key kw).1.2 = Data.defaults self /\
  (forall name' key' : string,
     (name', key') <> (Data.mapper_name model, key) ->
     Data.lookup (Data.add self DBSession model key kw).1.2 name' key'
     = Data.lookup self name' key').
Proof.
  destruct (Data_add_unfold self DBSession model key kw) as (new & -> & _).
  unfold Data.lookup. simpl. repeat split.
  - by rewrite lookup_insert_eq; simpl; rewrite lookup_insert_eq.
  - intros name' key' Hne.
    destruct (decide (name' = Data.mapper_name model)) as [->|Hname].
    + rewrite lookup_insert_eq. simpl.
      rewrite lookup_insert_ne by congruence.
      by destruct (Data.items self !! Data.mapper_name model).
    + by rewrite lookup_insert_ne.
Qed.

(** X12: Adding a second object for the same model under the same key replaces
    the first one in the dictionary; the session has been handed both, in
    the order of the calls. *)
Theorem Data_add_replaces {object : Type} (self : Data.t (object := object))
    (DBSession : list object) (model : Data.model) (key : string)
    (kw1 kw2 : gmap string object) :
  let first := Data.add self DBSession model key kw1 in
  let second := Data.add first.1.2 first.2 model key kw2 in
  Data.lookup second.1.2 (Data.mapper_name model) key = Some second.1.1 /\
  second.2 = (DBSession ++ [first.1.1; second.1.1])%list /\
  (forall name' key' : string,
     (name', key') <> (Data.mapper_name model, key) ->
     Data.lookup second.1.2 name' key' = Data.lookup self name' key').
Proof.
  intros first second. subst second first.
  destruct (Data_add_unfold self DBSession model key kw1) as (o1 & -> & _).
  simpl.
  match goal with
  | |- context [Data.add ?s ?S model key kw2] =>
      destruct (Data_add_unfold s S model key kw2) as (o2 & -> & _)
  end.
  unfold Data.lookup. simpl. rewrite !lookup_insert_eq. simpl.
  split; [by rewrite lookup_insert_eq|]. split; [by rewrite <- app_assoc|].
  intros name' key' Hne.
  destruct (decide (name' = Data.mapper_name model)) as [->|Hname].
  - rewrite lookup_insert_eq. simpl.
    rewrite !lookup_insert_ne by congruence.
    by destruct (Data.items self !! Data.mapper_name model).
  - by rewrite !lookup_insert_ne.
Qed.

Lemma map_to_list_single {object : Type} (kw : gmap string object)
    (k : string) (obj : object) :
  map_to_list kw = [(k, obj)] <-> kw = {[k := obj]}.
Proof.
  split.
  - intros Hl. rewrite <- (list_to_map_to_list kw), Hl. done.
  - intros ->. apply map_to_list_singleton.
Qed.

(** X13: The object that [add] stores.  When [_obj] is the only keyword, it is
    the object given under it: the model is not called and the defaults of
    the [Data] are not used.  In every other case the model is called with
    the keywords of the call, completed by the defaults: a keyword of the
    call is passed as given, also when there is a default of the same name,
    and a default is passed for the names the call leaves out. *)
Theorem Data_add_keywords {object : Type} (self : Data.t (object := object))
    (DBSession : list object) (model : Data.model) (key : string)
    (kw : gmap string object) :
  (forall obj : object, kw = {["_obj" := obj]} ->
     (Data.add self DBSession model key kw).1.1 = obj) /\
  ((forall obj : object, kw <> {["_obj" := obj]}) ->
     exists passed : gmap string object,
       (Data.add self DBSession model key kw).1.1 = Data.call model passed /\
       (forall (k : string) (v : object), kw !! k = Some v -> passed !! k = Some v) /\
       (forall k : string, kw !! k = None ->
          passed !! k = Data.defaults self !! k)).
Proof.
  destruct (Data_add_unfold self DBSession model key kw) as (new & -> & ->).
  simpl. split.
  - intros obj ->. by rewrite map_to_list_singleton.
  - intros Hkw. exists (kw ∪ Data.defaults self). split; [|split].
    + destruct (map_to_list kw) as [|[k obj] [|? ?]] eqn:E; try done.
      destruct (String.eqb k "_obj") eqn:Ek; [|done].
      apply String.eqb_eq in Ek. subst k.
      apply map_to_list_single in E. by apply Hkw in E.
    + intros k v Hk. by apply lookup_union_Some_l.
    + intros k Hk. by apply lookup_union_r.
Qed.

Lemma Data_add_keywords_witness :
  (Data.add (Data.new {["id" := 7]}) [] Language_model "l" {["_obj" := 5]}).1.1
  = 5 /\
  exists passed : gmap string Z,
    (Data.add (Data.new {["id" := 7; "name" := 1]}) [] Language_model "l"
       {["id" := 3]}).1.1
    = Data.call Language_model passed /\
    passed !! "id" = Some 3 /\ passed !! "name" = Some 1.
Proof.
  destruct (Data_add_keywords (Data.new {["id" := 7]}) [] Language_model "l"
              {["_obj" := 5]}) as [Hobj _].
  destruct (Data_add_keywords (Data.new {["id" := 7; "name" := 1]}) []
              Language_model "l" {["id" := 3]}) as [_ Hcall].
  split; [by apply Hobj|].
  destruct Hcall as (passed & Hnew & Hgiven & Hdefault).
  - intros obj Heq.
    assert (Hid : ({["id" := 3]} : gmap string Z) !! "id"
                  = ({["_obj" := obj]} : gmap string Z) !! "id")
      by (by rewrite Heq).
    by rewrite lookup_singleton_eq, lookup_singleton_ne in Hid.
  - exists passed. split; [exact Hnew|]. split.
    + by apply Hgiven.
    + rewrite Hdefault by done. done.
Defined.

(** * clld.web.views: the redirect to a combination of parameters *)

Lemma split_nonempty (sep : ascii) (s : string) : split sep s <> [].
Proof.
  destruct s as [|c s]; simpl; [done|].
  destruct (Ascii.eqb c sep); [done|]. by destruct (split sep s).
Qed.

Lemma join_cons_char (sep : string) (c : ascii) (head : string)
    (tail : list string) :
  join sep (String c head :: tail) = String c (join sep (head :: tail)).
Proof. by destruct tail. Qed.

Lemma join_split (sep : ascii) (s : string) :
  join (String sep EmptyString) (split sep s) = s.
Proof.
  induction s as [|c s IH]; simpl; [done|].
  destruct (Ascii.eqb c sep) eqn:E.
  - apply Ascii.eqb_eq in E. subst c.
    pose proof (split_nonempty sep s) as Hne.
    destruct (split sep s) as [|head tail]; [done|].
    change (String sep (join (String sep EmptyString) (head :: tail))
            = String sep s).
    by rewrite IH.
  - pose proof (split_nonempty sep s) as Hne.
    destruct (split sep s) as [|head tail]; [done|].
    by rewrite join_cons_char, IH.
Qed.

Lemma split_app (sep : ascii) (x rest : string) :
  ~ In sep (list_ascii_of_string x) ->
  split sep (x ++ String sep rest) = x :: split sep rest.
Proof.
  induction x as [|c x IH]; simpl; intros Hno.
  - by rewrite Ascii.eqb_refl.
  - destruct (Ascii.eqb c sep) eqn:E.
    + apply Ascii.eqb_eq in E. exfalso. apply Hno. by left.
    + rewrite IH; [done|]. intros Hin. apply Hno. by right.
Qed.

Lemma split_no_sep (sep : ascii) (x : string) :
  ~ In sep (list_ascii_of_string x) -> split sep x = [x].
Proof.
  induction x as [|c x IH]; simpl; intros Hno; [done|].
  destruct (Ascii.eqb c sep) eqn:E.
  - apply Ascii.eqb_eq in E. exfalso. apply Hno. by left.
  - rewrite IH; [done|]. intros Hin. apply Hno. by right.
Qed.

Lemma split_join (sep : ascii) (l : list string) :
  l <> [] ->
  Forall (fun x => ~ In sep (list_ascii_of_string x)) l ->
  split sep (join (String sep EmptyString) l) = l.
Proof.
  intros Hne Hall. induction Hall as [|x l Hx Hl IH]; [done|].
  destruct l as [|y l].
  - by apply split_no_sep.
  - change (join (String sep EmptyString) (x :: y :: l))
      with (x ++ String sep (join (String sep EmptyString) (y :: l))).
    rewrite split_app by done. by rewrite IH.
Qed.

Lemma has_param_getall (key : string) (p : params) :
  has_param key p = negb (bool_decide (getall p key = [])).
Proof.
  unfold has_param, getall. induction p as [|[k v] p IH]; [done|].
  simpl. by destruct (String.eqb k key).
Qed.

Lemma getparam_getall (key : string) (p : params) :
  getparam p key = match getall p key with
                   | value :: _ => Ok value
                   | [] => Throw (KeyError key)
                   end.
Proof.
  unfold getparam, getall. induction p as [|[k v] p IH]; [done|].
  simpl. rewrite String.eqb_sym. by destruct (String.eqb k key).
Qed.

(** X14: The view always raises, and what it raises is fixed by the values
    of the parameter [parameters].  Without a value it raises HTTPNotFound,
    and only then.  With several values it redirects to the route
    'combination' with the id made of the values, as they are, joined by
    the delimiter.  With one value it redirects to the same route with the
    id made of the parts of the value between its commas, joined by the
    delimiter.  So the identifiers can be sent as several [parameters] or as
    one, separated by commas: when no identifier contains a comma, both
    ways redirect to the same place; and with a comma as delimiter the id
    of a single value is the value itself. *)
Theorem select_combination_location (delimiter : string)
    (route_url : string -> list (string * string) -> string) (p : params) :
  (select_combination delimiter route_url p = HTTPNotFound
   <-> getall p "parameters" = []) /\
  (forall (first second : string) (more : list string),
     getall p "parameters" = first :: second :: more ->
     select_combination delimiter route_url p
     = HTTPFound
         (route_url "combination"
            [("id", join delimiter (first :: second :: more))])) /\
  (forall value : string,
     getall p "parameters" = [value] ->
     select_combination delimiter route_url p
     = HTTPFound
         (route_url "combination"
            [("id", join delimiter (split "," value))])) /\
  (forall ids : list string,
     ids <> [] -> Forall no_comma ids ->
     getall p "parameters" = ids \/ getall p "parameters" = [join "," ids] ->
     select_combination delimiter route_url p
     = HTTPFound (route_url "combination" [("id", join delimiter ids)])) /\
  (forall value : string,
     getall p "parameters" = [value] -> delimiter = "," ->
     select_combination delimiter route_url p
     = HTTPFound (route_url "combination" [("id", value)])).
Proof.
  unfold select_combination.
  rewrite has_param_getall, getparam_getall. split; [|split; [|split; [|split]]].
  - destruct (getall p "parameters") as [|x [|y l]]; simpl; by split.
  - by intros first second more ->.
  - by intros value ->.
  - intros ids Hne Hall [Hids|Hids]; rewrite Hids.
    + destruct ids as [|x [|y ids]]; [done|..]; simpl; [|done].
      rewrite (split_no_sep "," x); [done|].
      by inversion Hall.
    + simpl. by rewrite (split_join "," ids).
  - intros value -> ->. simpl.
    by rewrite (join_split "," value).
Qed.

(** * clld.web.views: link headers *)

Lemma Response_eta (response : Response) :
  {| body := body response; headerlist := headerlist response |} = response.
Proof. by destruct response. Qed.

(** X15: [_add_link_header] leaves the body and the headers of the response in
    place and appends at most one header, named 'Link'.  With an adapter,
    the [rel] and [mimetype] passed to it are not used: the call is the one
    without adapter for the adapter's [rel] and its [send_mimetype], or,
    when that is not set, its [mimetype].  Without an adapter, the header
    is left out exactly when [rel] or [mimetype] is empty or [None]. *)
Theorem add_link_header_effect (response : Response) (url : string)
    (adapter : option Adapter.t) (rel mimetype : option string) :
  body (_add_link_header response url adapter rel mimetype) = body response /\
  (exists extra : list (string * string),
     headerlist (_add_link_header response url adapter rel mimetype)
     = (headerlist response ++ extra)%list /\
     (List.length extra <= 1)%nat /\
     Forall (fun header => header.1 = "Link") extra) /\
  (forall a : Adapter.t, adapter = Some a ->
     _add_link_header response url adapter rel mimetype
     = _add_link_header response url None (Adapter.rel a)
         (py_or (Adapter.send_mimetype a) (Adapter.mimetype a))) /\
  (adapter = None ->
     (_add_link_header response url adapter rel mimetype = response
      <-> str_truthy rel = false \/ str_truthy mimetype = false)).
Proof.
  split; [|split; [|split]].
  - unfold _add_link_header. by destruct (_ && _).
  - unfold _add_link_header. destruct (_ && _).
    + eexists. split; [reflexivity|]. split; [simpl; lia|].
      by repeat constructor.
    + exists []. split; [by rewrite app_nil_r|]. split; [simpl; lia|done].
  - by intros a ->.
  - intros ->. unfold _add_link_header.
    destruct (str_truthy mimetype), (str_truthy rel); simpl;
      try (split; [auto|done]).
    split; [|by intros [|]].
    intros Heq. apply (f_equal headerlist) in Heq. simpl in Heq.
    apply (f_equal List.length) in Heq. rewrite length_app in Heq.
    simpl in Heq. lia.
Qed.

Lemma add_link_header_effect_witness :
  headerlist (_add_link_header {| body := "page"; headerlist := [] |} "/l/1"
                (Some snippet_adapter) (Some "canonical") (Some "text/html"))
  = [] /\
  _add_link_header {| body := "page"; headerlist := [] |} "/l/1"
    None None (Some "text/html")
  = {| body := "page"; headerlist := [] |}.
Proof.
  destruct (add_link_header_effect {| body := "page"; headerlist := [] |}
              "/l/1" (Some snippet_adapter) (Some "canonical")
              (Some "text/html")) as (_ & _ & Hadapter & _).
  destruct (add_link_header_effect {| body := "page"; headerlist := [] |}
              "/l/1" None None (Some "text/html")) as (_ & _ & _ & Hnone).
  split.
  - by rewrite (Hadapter snippet_adapter eq_refl).
  - apply Hnone; [done|by left].
Defined.

(** The header of an adapter. *)
Lemma add_link_header_adapter (response : Response) (url : string)
    (a : Adapter.t) (rel mimetype : option string) :
  _add_link_header response url (Some a) rel mimetype
  = if str_truthy (py_or (Adapter.send_mimetype a) (Adapter.mimetype a))
       && str_truthy (Adapter.rel a)
    then {| body := body response;
            headerlist :=
              (headerlist response
                 ++ [("Link",
                      link url (str (Adapter.rel a))
                        (str (py_or (Adapter.send_mimetype a)
                                (Adapter.mimetype a))))])%list |}
    else response.
Proof. done. Qed.

Lemma foldl_add_link_header (url : Adapter.t -> string)
    (rel mimetype : option string) (adapters : list Adapter.t)
    (response : Response) :
  foldl (fun res a => _add_link_header res (url a) (Some a) rel mimetype)
    response
    (List.filter (fun a => str_truthy (Adapter.rel a)
                           && str_truthy (Adapter.extension a)) adapters)
  = {| body := body response;
       headerlist :=
         (headerlist response
            ++ ((fun a => ("Link",
                           link (url a) (str (Adapter.rel a))
                             (str (py_or (Adapter.send_mimetype a)
                                     (Adapter.mimetype a)))))
                  <$> List.filter linked adapters))%list |}.
Proof.
  revert response. induction adapters as [|a adapters IH]; intros response.
  - simpl. by rewrite app_nil_r, Response_eta.
  - simpl. unfold linked at 1.
    destruct (str_truthy (Adapter.rel a)) eqn:Erel; simpl; [|apply IH].
    destruct (str_truthy (Adapter.extension a)) eqn:Eext; simpl; [|apply IH].
    rewrite IH, add_link_header_adapter, Erel.
    destruct (str_truthy (py_or _ _)); simpl; [|done].
    by rewrite <- app_assoc.
Qed.

Lemma foldl_conditional {X Y} (f : Y -> X -> Y) (cond : X -> bool)
    (l : list X) (y : Y) :
  foldl (fun y x => if cond x then f y x else y) y l
  = foldl f y (List.filter cond l).
Proof.
  revert y. induction l as [|x l IH]; intros y; simpl; [done|].
  destruct (cond x); simpl; apply IH.
Qed.

Lemma String_length_app (s t : string) :
  String.length (s ++ t) = (String.length s + String.length t)%nat.
Proof. induction s as [|c s IH]; simpl; [done|]. by rewrite IH. Qed.

Lemma endswith_alt (base : string) :
  endswith (base ++ "_alt") "_alt" = true /\ drop_last 4 (base ++ "_alt") = base.
Proof.
  unfold endswith, drop_last. rewrite String_length_app. simpl String.length.
  replace (String.length base + 4 - 4)%nat with (String.length base) by lia.
  split.
  - apply andb_true_intro. split; [apply Nat.leb_le; lia|].
    apply String.eqb_eq. induction base as [|c base IH]; [done|]. exact IH.
  - induction base as [|c base IH]; [done|]. simpl. by rewrite IH.
Qed.

Section views_facts.
Context {context request : Type}.
Variable matched_route : request -> option string.
Variable resource_url : request -> context -> list (string * string) -> string.
Variable route_url : request -> string -> list (string * string) -> string.
Variable get_adapter :
  interface -> context -> request -> option Adapter.t * list Adapter.t.
Variable render_to_response : Adapter.t -> context -> request -> Response.
Variable is_xhr : request -> bool.
Variable req_params : request -> params.
Variable datatable_xhr_view : context -> request -> result Response.

(** X16: [resource_view] raises HTTPNotAcceptable when no adapter fits the
    request.  Otherwise it returns what the adapter renders, with link
    headers behind the headers of the rendered response: none when no
    route matched; the one canonical link to the resource when the name of
    the route ends in '_alt'; and else one link for each adapter whose
    [rel], [extension] and mime type are set, in the order of the
    adapters. *)
Theorem resource_view_links (ctx : context) (req : request) :
  (forall adapters : list Adapter.t,
     get_adapter IRepresentation ctx req = (None, adapters) ->
     resource_view matched_route resource_url get_adapter render_to_response
       ctx req
     = Throw HTTPNotAcceptable) /\
  (forall (a : Adapter.t) (adapters : list Adapter.t),
     get_adapter IRepresentation ctx req = (Some a, adapters) ->
     resource_view matched_route resource_url get_adapter render_to_response
       ctx req
     = Ok {| body := body (render_to_response a ctx req);
             headerlist :=
               (headerlist (render_to_response a ctx req)
                  ++ match matched_route req with
                     | None => []
                     | Some name =>
                         if endswith name "_alt" then
                           [("Link",
                             link (resource_url req ctx []) "canonical"
                               "text/html")]
                         else
                           (fun a =>
                              ("Link",
                               link (resource_url req ctx
                                       [("ext", str (Adapter.extension a))])
                                 (str (Adapter.rel a))
                                 (str (py_or (Adapter.send_mimetype a)
                                         (Adapter.mimetype a)))))
                             <$> List.filter linked adapters
                     end)%list |}).
Proof.
  unfold resource_view, view. split.
  - intros adapters ->. done.
  - intros a adapters ->. simpl. f_equal.
    destruct (matched_route req) as [name|].
    + destruct (endswith name "_alt"); [done|].
      rewrite (foldl_conditional
                 (fun res a => _add_link_header res
                                 (resource_url req ctx
                                    [("ext", str (Adapter.extension a))])
                                 (Some a) (Some "canonical") (Some "text/html"))).
      apply (foldl_add_link_header
               (fun a => resource_url req ctx
                           [("ext", str (Adapter.extension a))])).
    + by rewrite app_nil_r, Response_eta.
Qed.

(** X17: [index_view] hands an XMLHttpRequest with the parameter [sEcho] to
    [datatable_xhr_view].  For any other request it raises
    HTTPNotAcceptable when no adapter fits, and otherwise returns what the
    adapter renders with link headers behind it: none when no route
    matched; for a route named [<base>_alt] the one canonical link to the
    route [<base>]; and else one link to the route [<name>_alt] for each
    adapter whose [rel], [extension] and mime type are set, in the order of
    the adapters. *)
Theorem index_view_links (ctx : context) (req : request) :
  (is_xhr req = true -> has_param "sEcho" (req_params req) = true ->
   index_view matched_route route_url get_adapter render_to_response is_xhr
     req_params datatable_xhr_view ctx req
   = datatable_xhr_view ctx req) /\
  (is_xhr req = false \/ has_param "sEcho" (req_params req) = false ->
   (forall adapters : list Adapter.t,
      get_adapter IIndex ctx req = (None, adapters) ->
      index_view matched_route route_url get_adapter render_to_response is_xhr
        req_params datatable_xhr_view ctx req
      = Throw HTTPNotAcceptable) /\
   (forall (a : Adapter.t) (adapters : list Adapter.t),
      get_adapter IIndex ctx req = (Some a, adapters) ->
      (matched_route req = None ->
       index_view matched_route route_url get_adapter render_to_response
         is_xhr req_params datatable_xhr_view ctx req
       = Ok (render_to_response a ctx req)) /\
      (forall base : string, matched_route req = Some (base ++ "_alt") ->
       index_view matched_route route_url get_adapter render_to_response
         is_xhr req_params datatable_xhr_view ctx req
       = Ok {| body := body (render_to_response a ctx req);
               headerlist :=
                 (headerlist (render_to_response a ctx req)
                    ++ [("Link",
                         link (route_url req base []) "canonical"
                           "text/html")])%list |}) /\
      (forall name : string, matched_route req = Some name ->
       endswith name "_alt" = false ->
       index_view matched_route route_url get_adapter render_to_response
         is_xhr req_params datatable_xhr_view ctx req
       = Ok {| body := body (render_to_response a ctx req);
               headerlist :=
                 (headerlist (render_to_response a ctx req)
                    ++ ((fun a =>
                           ("Link",
                            link (route_url req (name ++ "_alt")
                                    [("ext", str (Adapter.extension a))])
                              (str (Adapter.rel a))
                              (str (py_or (Adapter.send_mimetype a)
                                      (Adapter.mimetype a)))))
                          <$> List.filter linked adapters))%list |}))).
Proof.
  unfold index_view, view. split.
  - by intros -> ->.
  - intros Hplain.
    assert (Hcond : is_xhr req && has_param "sEcho" (req_params req) = false).
    { destruct Hplain as [-> | ->]; [done|by destruct (is_xhr req)]. }
    rewrite Hcond. split.
    + by intros adapters ->.
    + intros a adapters ->. simpl. split; [|split].
      * by intros ->.
      * intros base ->. destruct (endswith_alt base) as [-> ->]. done.
      * intros name -> ->. f_equal.
        apply (foldl_add_link_header
                 (fun a => route_url req (name ++ "_alt")
                             [("ext", str (Adapter.extension a))])).
Qed.
End views_facts.
